(** * Dealing with class imbalance: a model of the teaching notebook

    Shallow embedding of [teacher/2_dealing_with_class_imbalance.py]:
    the label index sets, the [NpArrayDataset] wrapper, the network
    template [model_fn], the epoch-completion handlers wired onto the
    training engine, and the def/use structure of the notebook cells. *)

From Stdlib Require Import ZArith QArith Qabs List Bool Lia Sorted.
From stdpp Require Import base gmap strings list pretty.

Local Open Scope Z_scope.

(** ** Python results *)

Module Py.

(** The exceptions the modelled code can raise. *)
Inductive exn : Type :=
| IndexError
| TypeError
| AttributeError
| KeyError
| ValueError
| OSError.

Inductive result (A : Type) : Type :=
| Ok (a : A)
| Raise (e : exn).
Arguments Ok {A} a.
Arguments Raise {A} e.

Definition bind {A B} (r : result A) (k : A -> result B) : result B :=
  match r with
  | Ok a => k a
  | Raise e => Raise e
  end.

(** A value handed to a parameter annotated [np.ndarray]: the notebook
    passes either an array or the placeholder [...]. *)
Inductive pyarr (A : Type) : Type :=
| PyEllipsis
| PyArray (items : list A).
Arguments PyEllipsis {A}.
Arguments PyArray {A} items.

(** [a[i]] for an integer [i] on the first axis, with numpy's negative
    indices; indexing the [...] object is a [TypeError]. *)
Definition np_getitem {A} (a : pyarr A) (i : Z) : result A :=
  match a with
  | PyEllipsis => Raise TypeError
  | PyArray l =>
      let n := Z.of_nat (length l) in
      let j := if i <? 0 then i + n else i in
      if (0 <=? j) && (j <? n)
      then match l !! Z.to_nat j with
           | Some v => Ok v
           | None => Raise IndexError
           end
      else Raise IndexError
  end.

(** [a.shape[0]]. *)
Definition np_shape0 {A} (a : pyarr A) : result nat :=
  match a with
  | PyEllipsis => Raise AttributeError
  | PyArray l => Ok (length l)
  end.

End Py.

Import Py.

Notation "'let*' x := c1 'in' c2" := (Py.bind c1 (fun x => c2))
  (at level 10, x name, c1 at level 100, c2 at level 200).

(** ** Label index sets (cell "Hint to get your started") *)

Module Labels.

(** [labels == v]: the element-wise comparison of a 1-D integer array. *)
Definition np_eq (labels : list Z) (v : Z) : list bool :=
  (fun l => l =? v) <$> labels.

(** [np.where(cond)] on a 1-D boolean array: the positions holding
    [True], in increasing order (the single component of the tuple
    numpy returns). *)
Fixpoint np_where_from (k : nat) (cond : list bool) : list nat :=
  match cond with
  | [] => []
  | b :: cond' =>
      if b then k :: np_where_from (S k) cond'
      else np_where_from (S k) cond'
  end.

Definition np_where (cond : list bool) : list nat := np_where_from 0 cond.

Definition background_indexes (trainval_labels : list Z) : list nat :=
  np_where (np_eq trainval_labels 0).

Definition foreground_indexes (trainval_labels : list Z) : list nat :=
  np_where (np_eq trainval_labels 1).

End Labels.

(** ** The dataset wrapper *)

Module Dataset.

Section WithCallables.

(** [npval]: what indexing an array yields (an image, a label);
    [obj]: what a transform or [torch.tensor] returns;
    [callable]: the transform objects. *)
Context {npval obj callable : Type}.

Record NpArrayDataset : Type := {
  images : pyarr npval;
  labels : pyarr npval;
  image_transforms : option callable;
  label_transforms : option callable
}.

(** Calling a transform: it returns an object and may, like any Python
    callable, touch the dataset it is called from. *)
Variable call : callable -> npval -> NpArrayDataset -> obj * NpArrayDataset.
Variable torch_tensor : npval -> obj.

(** Methods run in a state-and-exception monad over [self]. *)
Definition M (A : Type) : Type := NpArrayDataset -> result A * NpArrayDataset.

Definition ret {A} (a : A) : M A := fun self => (Ok a, self).

Definition and_then {A B} (m : M A) (k : A -> M B) : M B :=
  fun self =>
    match m self with
    | (Ok a, self') => k a self'
    | (Raise e, self') => (Raise e, self')
    end.

Definition attr {A} (field : NpArrayDataset -> A) : M A :=
  fun self => (Ok (field self), self).

Definition lift {A} (r : result A) : M A := fun self => (r, self).

Definition invoke (f : callable) (v : npval) : M obj :=
  fun self => let '(o, self') := call f v self in (Ok o, self').

Local Notation "'let!' x := c1 'in' c2" := (and_then c1 (fun x => c2))
  (at level 10, x name, c1 at level 100, c2 at level 200).

Definition __init__ (images_ labels_ : pyarr npval)
    (image_transforms_ label_transforms_ : option callable) : NpArrayDataset :=
  {| images := images_;
     labels := labels_;
     image_transforms := image_transforms_;
     label_transforms := label_transforms_ |}.

Definition __len__ : M nat :=
  let! a := attr images in
  lift (np_shape0 a).

Definition __getitem__ (index : Z) : M (obj * obj) :=
  let! a := attr images in
  let! x := lift (np_getitem a index) in
  let! b := attr labels in
  let! y := lift (np_getitem b index) in
  let! it := attr image_transforms in
  let! x' := match it with
             | Some f => invoke f x
             | None => ret (torch_tensor x)
             end in
  let! lt := attr label_transforms in
  let! y' := match lt with
             | Some g => invoke g y
             | None => ret (torch_tensor y)
             end in
  ret (x', y').

(** What the two branches of [__getitem__] compute for one field. *)
Definition transformed (t : option callable) (v : npval)
    (self : NpArrayDataset) : obj * NpArrayDataset :=
  match t with
  | Some f => call f v self
  | None => (torch_tensor v, self)
  end.

(** A transform set is side-effect free when no call changes [self]. *)
Definition pure_transforms : Prop :=
  forall f v self, snd (call f v self) = self.

End WithCallables.

Arguments NpArrayDataset : clear implicits.

End Dataset.

(** ** The network template *)

Module Model.

(** A constructor argument as written in the notebook: an integer, a
    probability in percent ([p=0.10] is [HProb 10]) or the blank [...]. *)
Inductive hparam : Type :=
| HInt (z : Z)
| HProb (percent : Z)
| HEllipsis.

(** The layer constructors of the tensor library, in the keyword order the
    notebook uses. Each one either builds a module or raises. *)
Class nn (module : Type) : Type := {
  Conv2d (in_channels out_channels kernel_size padding : hparam) : result module;
  BatchNorm2d (num_features : hparam) : result module;
  BatchNorm1d (num_features : hparam) : result module;
  ReLU : result module;
  MaxPool2d (kernel_size : hparam) : result module;
  Flatten : result module;
  Linear (in_features out_features : hparam) : result module;
  Dropout (p : hparam) : result module;
  LogSoftmax (dim : hparam) : result module;
  Sequential (layers : list module) : result module;
  to_device (m : module) : result module
}.

Section WithLibrary.

Context {module : Type} `{nn module}.

(** Python evaluates the arguments of [nn.Sequential(...)] left to right,
    so the constructors run in source order and the first exception
    leaves [model_fn]. *)
Definition model_fn (num_classes : Z) : result module :=
  (* size: 3 x 64 x 64 *)
  let* l01 := Conv2d (HInt 3) (HInt 32) (HInt 3) (HInt 1) in
  let* l02 := BatchNorm2d (HInt 32) in
  (* size: 32 x 64 x 64 *)
  let* l03 := ReLU in
  let* l04 := Conv2d HEllipsis (HInt 32) (HInt 3) (HInt 1) in
  let* l05 := BatchNorm2d (HInt 32) in
  let* l06 := ReLU in
  let* l07 := MaxPool2d (HInt 2) in
  (* size: 32 x 32 x 32 *)
  let* l08 := Conv2d (HInt 32) (HInt 64) (HInt 3) (HInt 1) in
  let* l09 := BatchNorm2d (HInt 64) in
  let* l10 := ReLU in
  let* l11 := Conv2d (HInt 64) (HInt 64) (HInt 3) (HInt 1) in
  let* l12 := BatchNorm2d (HInt 64) in
  let* l13 := ReLU in
  (* size: 64 x 32 x 32 *)
  let* l14 := MaxPool2d (HInt 2) in
  let* l15 := Conv2d HEllipsis (HInt 128) (HInt 3) (HInt 1) in
  let* l16 := BatchNorm2d (HInt 128) in
  let* l17 := ReLU in
  let* l18 := Conv2d HEllipsis (HInt 128) (HInt 3) (HInt 1) in
  let* l19 := BatchNorm2d (HInt 128) in
  let* l20 := ReLU in
  let* l21 := MaxPool2d (HInt 2) in
  let* l22 := Conv2d (HInt 128) (HInt 128) (HInt 3) (HInt 1) in
  let* l23 := BatchNorm2d (HInt 128) in
  let* l24 := ReLU in
  let* l25 := Conv2d HEllipsis (HInt 128) (HInt 3) (HInt 1) in
  let* l26 := BatchNorm2d HEllipsis in
  let* l27 := ReLU in
  let* l28 := MaxPool2d (HInt 2) in
  let* l29 := Flatten in
  let* l30 := Linear HEllipsis (HInt 256) in
  let* l31 := BatchNorm1d HEllipsis in
  let* l32 := ReLU in
  let* l33 := Dropout (HProb 10) in
  let* l34 := Linear (HInt 256) (HInt 64) in
  let* l35 := BatchNorm1d HEllipsis in
  let* l36 := ReLU in
  let* l37 := Dropout (HProb 10) in
  let* l38 := Linear (HInt 64) (HInt num_classes) in
  let* l39 := LogSoftmax (HInt (-1)) in
  Sequential
    [l01; l02; l03; l04; l05; l06; l07; l08; l09; l10; l11; l12; l13;
     l14; l15; l16; l17; l18; l19; l20; l21; l22; l23; l24; l25; l26;
     l27; l28; l29; l30; l31; l32; l33; l34; l35; l36; l37; l38; l39].

(** The cell that builds the model:
    [model = model_fn(num_classes=2)] then [model.to(DEVICE)]. *)
Definition model_cell : result module :=
  let* model := model_fn 2 in
  to_device model.

End WithLibrary.

(** Modelled from the spec: the layer constructors of the external tensor
    library, which is not part of the sources. Following section 7 of the
    spec (a blank left in the architecture makes the library fail, and the
    failure is the library's own), a constructor raises [TypeError] when
    one of its numeric arguments is the placeholder [...], and otherwise
    returns a module recording its name. *)
Definition is_blank (h : hparam) : bool :=
  match h with
  | HEllipsis => true
  | _ => false
  end.

(** Modelled from the spec: a constructor call of the tensor library, as
    described above. *)
Definition construct (name : string) (args : list hparam) : result string :=
  if existsb is_blank args then Raise TypeError else Ok name.

(** Modelled from the spec: the tensor library as an instance of [nn];
    [Sequential] and [to] accept any modules. *)
#[export] Instance torch_nn : nn string := {|
  Conv2d i o k p := construct "Conv2d" [i; o; k; p];
  BatchNorm2d n := construct "BatchNorm2d" [n];
  BatchNorm1d n := construct "BatchNorm1d" [n];
  ReLU := construct "ReLU" [];
  MaxPool2d k := construct "MaxPool2d" [k];
  Flatten := construct "Flatten" [];
  Linear i o := construct "Linear" [i; o];
  Dropout p := construct "Dropout" [p];
  LogSoftmax d := construct "LogSoftmax" [d];
  Sequential layers := Ok (String.concat "," layers);
  to_device m := Ok m
|}.

End Model.

(** ** The training engine and its handlers *)

Module Engine.

(** The operations the notebook applies to metric values (Python floats):
    [-val_loss], the comparison of two scores, and [accuracy * 100]. *)
Class Metric (value : Type) : Type := {
  neg : value -> value;
  le : value -> value -> bool;
  times100 : value -> value
}.

#[export] Instance Z_metric : Metric Z := {|
  neg := Z.opp;
  le := Z.leb;
  times100 := Z.mul 100
|}.

(** [d[k]] on a Python dict. *)
Definition dict_get {A} (d : gmap string A) (k : string) : result A :=
  match d !! k with
  | Some v => Ok v
  | None => Raise KeyError
  end.

(** [d[k].append(v)]: the list stored under [k] grows in place. *)
Definition dict_append {A} (k : string) (v : A) (d : gmap string (list A))
    : result (gmap string (list A)) :=
  let* l := dict_get d k in
  Ok (<[k := l ++ [v]]> d).

Section WithValues.

Context {value : Type} `{Metric value}.
Context {state_dict : Type}.

(** [model_name = ...] is a blank of the notebook: the name the student
    registers the model under. *)
Variable model_name : string.

Definition dataset_name : string := "aircrafts".
Definition n_saved : nat := 2.
Definition patience : nat := 10.

(** An engine, as far as the handlers look at it: [engine.state.metrics]. *)
Record engine : Type := { metrics : gmap string value }.

(** What one run of an evaluator computes for the three metrics attached
    to it ([metrics = {"accuracy": ..., "nll": ..., "cm": ...}]). *)
Record evaluation : Type := {
  accuracy : value;
  nll : value;
  cm : value
}.

Definition computed_metrics (ev : evaluation) : gmap string value :=
  {[ "accuracy" := accuracy ev; "nll" := nll ev; "cm" := cm ev ]}.

(** What one training epoch produces outside the notebook's own code: the
    updated parameters and the two evaluations run on its completion. *)
Record epoch_obs : Type := {
  obs_model : state_dict;
  obs_train : evaluation;
  obs_val : evaluation
}.

Record world : Type := {
  (* trainer.state.epoch, trainer.should_terminate, model.state_dict() *)
  trainer_epoch : nat;
  should_terminate : bool;
  model : state_dict;
  (* the two evaluators *)
  train_evaluator : engine;
  val_evaluator : engine;
  (* handler = EarlyStopping(...) *)
  counter : nat;
  best_score : option value;
  (* checkpointer, and the directory ./saved_models ([None]: absent) *)
  saved : list string;
  saved_models : option (gmap string state_dict);
  (* logging variables *)
  training_history : gmap string (list value);
  validation_history : gmap string (list value);
  last_epoch : list Z
}.

Definition with_trainer (ep : nat) (stop : bool) (sd : state_dict) (w : world) : world :=
  {| trainer_epoch := ep; should_terminate := stop; model := sd;
     train_evaluator := train_evaluator w; val_evaluator := val_evaluator w;
     counter := counter w; best_score := best_score w;
     saved := saved w; saved_models := saved_models w;
     training_history := training_history w;
     validation_history := validation_history w;
     last_epoch := last_epoch w |}.

Definition with_evaluators (tr va : engine) (w : world) : world :=
  {| trainer_epoch := trainer_epoch w; should_terminate := should_terminate w;
     model := model w;
     train_evaluator := tr; val_evaluator := va;
     counter := counter w; best_score := best_score w;
     saved := saved w; saved_models := saved_models w;
     training_history := training_history w;
     validation_history := validation_history w;
     last_epoch := last_epoch w |}.

Definition with_stopper (c : nat) (b : option value) (w : world) : world :=
  {| trainer_epoch := trainer_epoch w; should_terminate := should_terminate w;
     model := model w;
     train_evaluator := train_evaluator w; val_evaluator := val_evaluator w;
     counter := c; best_score := b;
     saved := saved w; saved_models := saved_models w;
     training_history := training_history w;
     validation_history := validation_history w;
     last_epoch := last_epoch w |}.

Definition with_checkpoints (s : list string)
    (d : option (gmap string state_dict)) (w : world) : world :=
  {| trainer_epoch := trainer_epoch w; should_terminate := should_terminate w;
     model := model w;
     train_evaluator := train_evaluator w; val_evaluator := val_evaluator w;
     counter := counter w; best_score := best_score w;
     saved := s; saved_models := d;
     training_history := training_history w;
     validation_history := validation_history w;
     last_epoch := last_epoch w |}.

Definition with_logs (th vh : gmap string (list value)) (le_ : list Z)
    (w : world) : world :=
  {| trainer_epoch := trainer_epoch w; should_terminate := should_terminate w;
     model := model w;
     train_evaluator := train_evaluator w; val_evaluator := val_evaluator w;
     counter := counter w; best_score := best_score w;
     saved := saved w; saved_models := saved_models w;
     training_history := th;
     validation_history := vh;
     last_epoch := le_ |}.

(** [trainer.terminate()]. *)
Definition terminate (w : world) : world :=
  with_trainer (trainer_epoch w) true (model w) w.

(** *** Early stopping *)

Definition score_function (engine_ : engine) : result value :=
  let* val_loss := dict_get (metrics engine_) "nll" in
  Ok (neg val_loss).

(** Modelled from the spec: the early-stopping handler of the external
    training-engine library, which is not part of the sources. Following
    the glossary ("halting training when a monitored validation metric
    stops improving for a set number of evaluation rounds"): the handler
    remembers the best score seen, counts the rounds whose score does not
    exceed it, starts the count again on an improvement, and terminates the
    trainer when the count reaches its patience. *)
Definition EarlyStopping_call (patience_ : nat)
    (score_function_ : engine -> result value)
    (engine_ : engine) (w : world) : result world :=
  let* score := score_function_ engine_ in
  match best_score w with
  | None => Ok (with_stopper (counter w) (Some score) w)
  | Some best =>
      if le score best then
        let w' := with_stopper (S (counter w)) (Some best) w in
        if (patience_ <=? counter w')%nat then Ok (terminate w') else Ok w'
      else Ok (with_stopper 0 (Some score) w)
  end.

(** [handler = EarlyStopping(patience=10, score_function=score_function,
    trainer=trainer)]. *)
Definition handler : engine -> world -> result world :=
  EarlyStopping_call patience score_function.

(** Modelled from the spec: an evaluator run of the training-engine
    library ("trainer/evaluator event loops", "metrics").
    [train_evaluator.run(train_loader)] computes the metrics and stores
    them in the evaluator's state; no handler is attached to it. *)
Definition train_evaluator_run (ev : evaluation) (w : world) : result world :=
  Ok (with_evaluators {| metrics := computed_metrics ev |} (val_evaluator w) w).

(** Modelled from the spec: [val_evaluator.run(val_loader)], as above,
    then the handlers of [Events.COMPLETED], that is [handler]. *)
Definition val_evaluator_run (ev : evaluation) (w : world) : result world :=
  let w1 := with_evaluators (train_evaluator w) {| metrics := computed_metrics ev |} w in
  handler (val_evaluator w1) w1.

(** *** Checkpointing *)

(** Modelled from the spec: the checkpoint handler of the external
    training-engine library ("model checkpointing to a local directory"),
    with the arguments the notebook passes: the directory is created when
    [create_dir] is set and it is absent, an existing non-empty directory
    is refused only under [require_empty], each call writes the state dict
    to a file named after the prefix, the registered name and the epoch,
    and the oldest file is removed once more than [n_saved] are kept. *)
Definition ModelCheckpoint (create_dir require_empty : bool)
    (d : option (gmap string state_dict)) : result (option (gmap string state_dict)) :=
  match d with
  | None => if create_dir then Ok (Some ∅) else Raise ValueError
  | Some files =>
      if require_empty && negb (bool_decide (files = ∅))
      then Raise ValueError
      else Ok (Some files)
  end.

(** Modelled from the spec: the file name of a checkpoint, built from the
    prefix, the name the object is registered under and the epoch. *)
Definition checkpoint_name (prefix name : string) (step : nat) : string :=
  prefix +:+ "_" +:+ name +:+ "_" +:+ pretty step +:+ ".pt".

(** Modelled from the spec: one call of the checkpoint handler, with
    [checkpointer = ModelCheckpoint("./saved_models",
    filename_prefix=dataset_name, n_saved=2, ...)] registered with
    [{model_name: model}]. *)
Definition checkpointer (w : world) : result world :=
  match saved_models w with
  | None => Raise OSError
  | Some files =>
      let fname := checkpoint_name dataset_name model_name (trainer_epoch w) in
      let files' := <[fname := model w]> files in
      let saved' := saved w ++ [fname] in
      if (n_saved <? length saved')%nat then
        match saved' with
        | oldest :: kept => Ok (with_checkpoints kept (Some (delete oldest files')) w)
        | [] => Ok (with_checkpoints saved' (Some files') w)
        end
      else Ok (with_checkpoints saved' (Some files') w)
  end.

(** *** Logging handlers *)

Definition log_training_results (ev : evaluation) (w : world) : result world :=
  let* w1 := train_evaluator_run ev w in
  let metrics_ := metrics (train_evaluator w1) in
  let* acc := dict_get metrics_ "accuracy" in
  let accuracy_ := times100 acc in
  let* loss := dict_get metrics_ "nll" in
  let last_epoch' := last_epoch w1 ++ [0] in
  let* th1 := dict_append "accuracy" accuracy_ (training_history w1) in
  let* th2 := dict_append "loss" loss th1 in
  Ok (with_logs th2 (validation_history w1) last_epoch' w1).

Definition log_validation_results (ev : evaluation) (w : world) : result world :=
  let* w1 := val_evaluator_run ev w in
  let metrics_ := metrics (val_evaluator w1) in
  let* acc := dict_get metrics_ "accuracy" in
  let accuracy_ := times100 acc in
  let* loss := dict_get metrics_ "nll" in
  let* vh1 := dict_append "accuracy" accuracy_ (validation_history w1) in
  let* vh2 := dict_append "loss" loss vh1 in
  Ok (with_logs (training_history w1) vh2 (last_epoch w1) w1).

(** *** The trainer *)

(** The handlers of the trainer's [Events.EPOCH_COMPLETED], in the order
    the notebook registers them; the engine fires them in that order. *)
Definition epoch_completed_handlers (o : epoch_obs) : list (world -> result world) :=
  [ checkpointer;
    log_training_results (obs_train o);
    log_validation_results (obs_val o) ].

(** Modelled from the spec: firing an event runs its handlers in
    registration order; an exception leaves the loop. *)
Fixpoint fire (hs : list (world -> result world)) (w : world) : result world :=
  match hs with
  | [] => Ok w
  | h :: hs' => let* w' := h w in fire hs' w'
  end.

(** The worlds seen while the handlers fire, one after each handler that
    returned. *)
Fixpoint fire_trace (hs : list (world -> result world)) (w : world) : list world :=
  match hs with
  | [] => []
  | h :: hs' =>
      match h w with
      | Ok w' => w' :: fire_trace hs' w'
      | Raise _ => []
      end
  end.

(** Modelled from the spec: the trainer's event loop of the external
    training-engine library ("trainer/evaluator event loops"). One epoch
    updates the parameters, counts the epoch and fires the completion
    handlers; the loop ends when the epochs are exhausted or once
    [terminate] has been called. *)
Definition run_epoch (o : epoch_obs) (w : world) : result world :=
  fire (epoch_completed_handlers o)
       (with_trainer (S (trainer_epoch w)) (should_terminate w) (obs_model o) w).

(** Modelled from the spec: the epochs of one training run, as above. *)
Fixpoint trainer_loop (epochs : list epoch_obs) (w : world) : result world :=
  match epochs with
  | [] => Ok w
  | o :: epochs' =>
      if should_terminate w then Ok w
      else let* w' := run_epoch o w in trainer_loop epochs' w'
  end.

(** Every world the notebook's variables go through during
    [trainer_loop]: after each handler of each epoch. *)
Fixpoint trainer_trace (epochs : list epoch_obs) (w : world) : list world :=
  match epochs with
  | [] => []
  | o :: epochs' =>
      if should_terminate w then []
      else
        let w0 := with_trainer (S (trainer_epoch w)) (should_terminate w) (obs_model o) w in
        fire_trace (epoch_completed_handlers o) w0 ++
        match run_epoch o w with
        | Ok w' => trainer_trace epochs' w'
        | Raise _ => []
        end
  end.

(** The cell "ignite engine configuration": the state the notebook sets
    up before training, given the initial parameters and the state of the
    checkpoint directory. *)
Definition setup (model0 : state_dict) (dir0 : option (gmap string state_dict))
    : result world :=
  let* dir1 := ModelCheckpoint true false dir0 in
  Ok {| trainer_epoch := 0%nat; should_terminate := false; model := model0;
        train_evaluator := {| metrics := ∅ |};
        val_evaluator := {| metrics := ∅ |};
        counter := 0%nat; best_score := None;
        saved := []; saved_models := dir1;
        training_history := {[ "accuracy" := []; "loss" := [] ]};
        validation_history := {[ "accuracy" := []; "loss" := [] ]};
        last_epoch := [] |}.

(** The lengths of the four history lists. *)
Definition history_length (h : gmap string (list value)) (k : string) : nat :=
  match h !! k with
  | Some l => length l
  | None => 0%nat
  end.

Definition history_lengths (w : world) : list nat :=
  [ history_length (training_history w) "accuracy";
    history_length (training_history w) "loss";
    history_length (validation_history w) "accuracy";
    history_length (validation_history w) "loss" ].

(** The handlers find what they look up: the checkpoint directory exists
    and both history dicts have their two keys. *)
Definition ready (w : world) : Prop :=
  is_Some (saved_models w) /\
  is_Some (training_history w !! "accuracy") /\
  is_Some (training_history w !! "loss") /\
  is_Some (validation_history w !! "accuracy") /\
  is_Some (validation_history w !! "loss").

(** The checkpoint files the handler keeps after [k] epochs: those of the
    last two epochs, oldest first. *)
Definition recent_checkpoints (k : nat) : list string :=
  checkpoint_name dataset_name model_name <$> seq (S (k - Nat.min k n_saved)) (Nat.min k n_saved).

(** *** Views of the state used in the statements *)

(** One completion of the validation evaluator, seen from the stopper. *)
Definition stopper_step (score : value) (st : nat * option value * bool)
    : nat * option value * bool :=
  match st with
  | (c, None, t) => (c, Some score, t)
  | (c, Some best, t) =>
      if le score best then (S c, Some best, t || (patience <=? S c)%nat)
      else (0%nat, Some score, t)
  end.

(** The state of the early-stopping handler and the flag it sets. *)
Definition stopper (w : world) : nat * option value * bool :=
  (counter w, best_score w, should_terminate w).

(** What one call of the checkpoint handler does to the files it keeps. *)
Definition keep_recent (fname : string) (sd : state_dict)
    (kept : list string * option (gmap string state_dict))
    : list string * option (gmap string state_dict) :=
  match kept with
  | (sv, Some files) =>
      if (n_saved <? length (sv ++ [fname]))%nat
      then (tail (sv ++ [fname]),
            Some (delete (hd fname (sv ++ [fname])) (<[fname := sd]> files)))
      else (sv ++ [fname], Some (<[fname := sd]> files))
  | (sv, None) => (sv, None)
  end.

(** The files kept by the checkpoint handler and the directory. *)
Definition checkpoints (w : world) : list string * option (gmap string state_dict) :=
  (saved w, saved_models w).

(** A history dict after one more evaluation has been logged. *)
Definition appended (h : gmap string (list value)) (ev : evaluation)
    : gmap string (list value) :=
  let with_acc :=
    <["accuracy" := default [] (h !! "accuracy") ++ [times100 (accuracy ev)]]> h in
  <["loss" := default [] (h !! "loss") ++ [nll ev]]> with_acc.

(** After the epochs [done], the directory holds the state dicts of the
    last [n_saved] of them and none of the earlier ones. *)
Definition kept_files (done : list epoch_obs) (files : gmap string state_dict) : Prop :=
  forall j : nat, (j < length done)%nat ->
    files !! checkpoint_name dataset_name model_name (S j) =
      if (S j + n_saved <=? length done)%nat then None else obs_model <$> done !! j.

Definition checkpointed (done : list epoch_obs) (w : world) : Prop :=
  trainer_epoch w = length done /\
  saved w = recent_checkpoints (length done) /\
  exists files, saved_models w = Some files /\ kept_files done files.

End WithValues.

Arguments engine : clear implicits.
Arguments evaluation : clear implicits.
Arguments epoch_obs : clear implicits.
Arguments world : clear implicits.

End Engine.

(** ** The notebook cells as statements over the global names *)

Module Script.

Inductive phase : Type :=
| Download           (* cells "Put your imports here" .. "Download the dataset" *)
| Exploration        (* the cell printing shapes and label counts *)
| Splitting          (* the hint cell of "Dataset Splitting" *)
| Definitions        (* imports, DEVICE, class NpArrayDataset *)
| DatasetConstruction (* cell "Data loading" *)
| ModelConstruction  (* model_fn, model, optimizer, criterion *)
| TrainingLoop       (* trainer, metrics, evaluators, logging handlers *)
| Checkpointing      (* checkpointer and its registration *)
| EarlyStopping.     (* score_function, handler and its registration *)

(** A top-level statement: the global names it binds or mutates ([defs])
    and the global names it reads ([uses]). The body of a function
    definition that is registered as a handler is counted with the
    statement that registers it. *)
Record stmt : Type := {
  line : nat;
  stage : phase;
  defs : list string;
  uses : list string
}.

Definition S_ (l : nat) (p : phase) (d u : list string) : stmt :=
  {| line := l; stage := p; defs := d; uses := u |}.

Definition notebook : list stmt := [
  S_ 39 Download ["np"] [];
  S_ 43 Download ["TRAINVAL_DATASET_URL"] [];
  S_ 57 Download ["ds"] ["np"];
  S_ 58 Download ["f"; "ds"] ["ds"; "TRAINVAL_DATASET_URL"];
  S_ 59 Download ["trainval_dataset"; "f"] ["np"; "f"];
  S_ 60 Download ["trainval_images"] ["trainval_dataset"];
  S_ 61 Download ["trainval_labels"] ["trainval_dataset"];
  S_ 62 Download ["test_images"] ["trainval_dataset"];
  S_ 63 Download ["test_labels"] ["trainval_dataset"];
  S_ 66 Exploration [] ["trainval_images"];
  S_ 67 Exploration [] ["np"; "trainval_labels"];
  S_ 69 Exploration [] ["test_images"];
  S_ 70 Exploration [] ["np"; "test_labels"];
  S_ 94 Splitting ["background_indexes"] ["np"; "trainval_labels"];
  S_ 95 Splitting ["foreground_indexes"] ["np"; "trainval_labels"];
  S_ 116 Definitions ["Callable"] [];
  S_ 118 Definitions ["torch"] [];
  S_ 119 Definitions ["F"] [];
  S_ 120 Definitions ["Image"] [];
  S_ 121 Definitions ["nn"; "optim"] [];
  S_ 122 Definitions ["DataLoader"; "Dataset"] [];
  S_ 123 Definitions ["datasets"; "transforms"] [];
  S_ 126 Definitions ["DEVICE"] ["torch"];
  S_ 131 Definitions ["NpArrayDataset"] ["Dataset"; "np"; "Callable"; "torch"];
  S_ 166 DatasetConstruction ["image_transforms"] ["transforms"];
  S_ 173 DatasetConstruction ["target_transforms"] [];
  S_ 176 DatasetConstruction ["train_set"]
     ["NpArrayDataset"; "image_transforms"; "target_transforms"];
  S_ 179 DatasetConstruction ["train_loader"] ["DataLoader"; "train_set"];
  S_ 182 DatasetConstruction ["validation_set"]
     ["NpArrayDataset"; "image_transforms"; "target_transforms"];
  S_ 185 DatasetConstruction ["val_loader"] ["DataLoader"; "validation_set"];
  S_ 196 ModelConstruction ["model_fn"] ["nn"];
  S_ 249 ModelConstruction ["model_name"] [];
  S_ 250 ModelConstruction ["model"] ["model_fn"];
  S_ 252 ModelConstruction ["model"] ["model"; "DEVICE"];
  S_ 256 ModelConstruction [] ["model"];
  S_ 260 ModelConstruction ["optimizer"] [];
  S_ 261 ModelConstruction ["criterion"] [];
  S_ 265 TrainingLoop ["ignite"] [];
  S_ 266 TrainingLoop ["ignite"] [];
  S_ 267 TrainingLoop ["ignite"] [];
  S_ 268 TrainingLoop ["ignite"] [];
  S_ 269 TrainingLoop ["Events"] [];
  S_ 274 TrainingLoop ["dataset_name"] [];
  S_ 276 TrainingLoop ["trainer"; "model"; "optimizer"]
     ["ignite"; "model"; "optimizer"; "criterion"; "DEVICE"];
  S_ 279 TrainingLoop ["metrics"] ["ignite"; "criterion"];
  S_ 285 TrainingLoop ["trainer"] ["ignite"; "trainer"];
  S_ 288 TrainingLoop ["train_evaluator"] ["ignite"; "model"; "metrics"; "DEVICE"];
  S_ 289 TrainingLoop ["val_evaluator"] ["ignite"; "model"; "metrics"; "DEVICE"];
  S_ 292 TrainingLoop ["train_evaluator"] ["train_evaluator"; "ignite"];
  S_ 293 TrainingLoop ["val_evaluator"] ["val_evaluator"; "ignite"];
  S_ 297 Checkpointing ["checkpointer"] ["ignite"; "dataset_name"];
  S_ 305 Checkpointing ["trainer"; "checkpointer"]
     ["trainer"; "Events"; "checkpointer"; "model_name"; "model"];
  S_ 308 EarlyStopping ["score_function"] [];
  S_ 313 EarlyStopping ["handler"] ["ignite"; "score_function"; "trainer"];
  S_ 315 EarlyStopping ["val_evaluator"; "handler"; "trainer"]
     ["val_evaluator"; "Events"; "handler"; "score_function"; "trainer"];
  S_ 318 TrainingLoop ["training_history"] [];
  S_ 319 TrainingLoop ["validation_history"] [];
  S_ 320 TrainingLoop ["last_epoch"] [];
  S_ 323 TrainingLoop
     ["log_training_results"; "trainer"; "train_evaluator"; "last_epoch";
      "training_history"]
     ["trainer"; "Events"; "train_evaluator"; "train_loader"; "last_epoch";
      "training_history"];
  S_ 339 TrainingLoop
     ["log_validation_results"; "trainer"; "val_evaluator"; "validation_history"]
     ["trainer"; "Events"; "val_evaluator"; "val_loader"; "validation_history"]
].

(** The stages the test partition must stay out of. *)
Definition in_pipeline (s : stmt) : bool :=
  match stage s with
  | DatasetConstruction | TrainingLoop | Checkpointing | EarlyStopping => true
  | _ => false
  end.

Definition pipeline : list stmt := filter (fun s => in_pipeline s = true) notebook.

Definition test_partition : list string := ["test_images"; "test_labels"].

Definition mentions (x : string) (names : list string) : bool :=
  existsb (String.eqb x) names.

(** The statements that bind, mutate or read a name of the test partition. *)
Definition touches_test (s : stmt) : bool :=
  existsb (fun y => mentions y (defs s) || mentions y (uses s)) test_partition.

(** The names that hold data: the four arrays of the archive, the two
    datasets and the two loaders. *)
Definition data_names : list string :=
  ["trainval_images"; "trainval_labels"; "test_images"; "test_labels";
   "train_set"; "validation_set"; "train_loader"; "val_loader"].

(** The statements that make up the training run: the trainer and its
    handlers. *)
Definition runs_training (s : stmt) : bool :=
  match stage s with
  | TrainingLoop | Checkpointing | EarlyStopping => true
  | _ => false
  end.

Section Semantics.

(** The objects bound to the global names. What a statement computes is
    left open: [eff] gives, for the statement at a line, the new objects
    of its [defs] from the objects of its [uses]. *)
Context {V : Type}.
Variable eff : nat -> list (option V) -> list V.

Definition bind_all (names : list string) (vals : list V)
    (env : gmap string V) : gmap string V :=
  foldr (fun xv e => <[xv.1 := xv.2]> e) env (zip names vals).

Definition exec (s : stmt) (env : gmap string V) : gmap string V :=
  bind_all (defs s) (eff (line s) ((fun x => env !! x) <$> uses s)) env.

Definition exec_all (ss : list stmt) (env : gmap string V) : gmap string V :=
  foldl (fun e s => exec s e) env ss.

(** [agree T env1 env2]: the two environments bind every name outside [T]
    to the same object. *)
Definition agree (T : list string) (env1 env2 : gmap string V) : Prop :=
  forall y, y ∉ T -> env1 !! y = env2 !! y.

End Semantics.

End Script.

(** ** The datasets the notebook builds *)

Module Notebook.

Section WithTransforms.

Context {npval callable : Type}.

(** [image_transforms = transforms.Compose([transforms.ToTensor()])]. *)
Variable image_transforms : callable.

(** [target_transforms = None]. *)
Definition target_transforms : option callable := None.

(** [train_set = NpArrayDataset(images=..., labels=..., ...)]: both arrays
    are blanks of the notebook. *)
Definition train_set : Dataset.NpArrayDataset npval callable :=
  Dataset.__init__ PyEllipsis PyEllipsis (Some image_transforms) target_transforms.

Definition validation_set : Dataset.NpArrayDataset npval callable :=
  Dataset.__init__ PyEllipsis PyEllipsis (Some image_transforms) target_transforms.

End WithTransforms.

(** The share of positive labels in a label array. *)
Definition positives (labels : list Z) : nat :=
  length (filter (fun l => l = 1) labels).

Definition class_ratio (labels : list Z) : Q :=
  Z.of_nat (positives labels) # Pos.of_nat (length labels).

(** A partition handed to a dataset keeps the class ratio of the labels it
    was drawn from, up to [tol]. *)
Definition keeps_ratio (tol : Q) (trainval_labels : list Z) (part : pyarr Z) : Prop :=
  exists part_labels,
    part = PyArray part_labels /\
    (Qabs (class_ratio part_labels - class_ratio trainval_labels) <= tol)%Q.

End Notebook.

(** ** A concrete instance used to run the definitions *)

Module Example.

(** Images and labels are integers, a tensor is the integer itself, and
    the only transform doubles its argument without touching the dataset. *)
Definition call (f : unit) (v : Z) (self : Dataset.NpArrayDataset Z unit)
    : Z * Dataset.NpArrayDataset Z unit :=
  (2 * v, self).

Definition torch_tensor (v : Z) : Z := v.

Definition dataset : Dataset.NpArrayDataset Z unit :=
  Dataset.__init__ (PyArray [10; 20; 30]) (PyArray [0; 1; 0]) (Some tt) None.

(** A dataset whose labels are shorter than its images. *)
Definition ragged : Dataset.NpArrayDataset Z unit :=
  Dataset.__init__ (PyArray [10; 20; 30]) (PyArray [0]) None None.

(** Integer metrics, a one-point state dict, and a model registered as
    ["model"]. *)
Definition evaluation (acc loss : Z) : Engine.evaluation Z :=
  {| Engine.accuracy := acc; Engine.nll := loss; Engine.cm := 0 |}.

Definition epoch (val_loss : Z) : Engine.epoch_obs Z unit :=
  {| Engine.obs_model := tt;
     Engine.obs_train := evaluation 1 val_loss;
     Engine.obs_val := evaluation 1 val_loss |}.

Definition from_ok {A} (default : A) (r : result A) : A :=
  match r with
  | Ok a => a
  | Raise _ => default
  end.

(** The world after [setup] with no checkpoint directory on disk. *)
Definition world0 : Engine.world Z unit :=
  {| Engine.trainer_epoch := 0%nat; Engine.should_terminate := false;
     Engine.model := tt;
     Engine.train_evaluator := {| Engine.metrics := ∅ |};
     Engine.val_evaluator := {| Engine.metrics := ∅ |};
     Engine.counter := 0%nat; Engine.best_score := None;
     Engine.saved := []; Engine.saved_models := Some ∅;
     Engine.training_history := {[ "accuracy" := []; "loss" := [] ]};
     Engine.validation_history := {[ "accuracy" := []; "loss" := [] ]};
     Engine.last_epoch := [] |}.

(** The world after one epoch whose validation loss is 5. *)
Definition world1 : Engine.world Z unit :=
  from_ok world0 (Engine.trainer_loop (H := Engine.Z_metric) "model" [epoch 5] world0).

End Example.

(** ** Further views of the state and of the notebook *)

Module Views.

Import Engine Script.

Section Logs.

Context {value : Type} `{Metric value} {state_dict : Type}.

(** The logging variables after the epochs [done]: one entry per epoch in
    each history list, in epoch order, and one [0] per epoch in
    [last_epoch]. *)
Definition logged (done : list (epoch_obs value state_dict))
    (w : world value state_dict) : Prop :=
  trainer_epoch w = length done /\
  training_history w !! "accuracy"
    = Some ((fun o => times100 (accuracy (obs_train o))) <$> done) /\
  training_history w !! "loss" = Some ((fun o => nll (obs_train o)) <$> done) /\
  validation_history w !! "accuracy"
    = Some ((fun o => times100 (accuracy (obs_val o))) <$> done) /\
  validation_history w !! "loss" = Some ((fun o => nll (obs_val o)) <$> done) /\
  last_epoch w = replicate (length done) 0.

(** The early-stopping count stays behind the epoch count: nothing is
    counted before a first score is on record, the first epoch never
    counts, and the trainer is only terminated once the count has reached
    the patience. *)
Definition stopper_bounded (w : world value state_dict) : Prop :=
  (should_terminate w = true -> (patience <= counter w)%nat) /\
  match best_score w with
  | None => counter w = 0%nat /\ trainer_epoch w = 0%nat
  | Some _ => (S (counter w) <= trainer_epoch w)%nat
  end.

End Logs.

(** [well_scoped bound ss]: run top to bottom, every statement of [ss]
    reads only names of [bound] or names bound by an earlier statement. *)
Fixpoint well_scoped (bound : list string) (ss : list stmt) : bool :=
  match ss with
  | [] => true
  | s :: ss' =>
      forallb (fun x => mentions x bound) (uses s)
      && well_scoped (defs s ++ bound) ss'
  end.

(** How a run of the notebook as a script ends: every statement ran, a
    statement raised by itself, or a statement read a global name that
    was not bound (Python's [NameError]). *)
Inductive outcome (V : Type) : Type :=
| Completed (env : gmap string V)
| Raised (at_line : nat)
| Unbound (at_line : nat) (name : string).
Arguments Completed {V} env.
Arguments Raised {V} at_line.
Arguments Unbound {V} at_line name.

Section Checked.

Context {V : Type}.

(** What a statement does is left open: [step] gives, for the statement
    at a line and the objects of the names it reads, either the objects
    of the names it binds, or [None] when the statement raises. *)
Variable step : nat -> list (option V) -> option (list V).

(** One statement, with Python's name lookup. A statement that reads an
    unbound name is counted as a [NameError] even where it would raise
    something else first. *)
Definition exec_stmt (s : stmt) (env : gmap string V) : outcome V :=
  match List.find (fun x => negb (bool_decide (is_Some (env !! x)))) (uses s) with
  | Some x => Unbound (line s) x
  | None =>
      match step (line s) ((fun x => env !! x) <$> uses s) with
      | None => Raised (line s)
      | Some vals => Completed (bind_all (defs s) vals env)
      end
  end.

(** The script runs its statements in order and ends at the first one
    that does not complete. *)
Fixpoint run_script (ss : list stmt) (env : gmap string V) : outcome V :=
  match ss with
  | [] => Completed env
  | s :: ss' =>
      match exec_stmt s env with
      | Completed env' => run_script ss' env'
      | Raised l => Raised l
      | Unbound l x => Unbound l x
      end
  end.

(** A statement of [ss] that completes has an object for every name it
    binds. *)
Definition binds_when_completes (ss : list stmt) : Prop :=
  forall s inputs vals,
    s ∈ ss -> step (line s) inputs = Some vals ->
    (length (defs s) <= length vals)%nat.

(** How a run may end when no name is read before it is bound: it
    completes with every name of the statements bound, or it ends at a
    statement that raised by itself. *)
Definition scoped_outcome (ss : list stmt) (r : outcome V) : Prop :=
  match r with
  | Completed env =>
      forall s x, s ∈ ss -> x ∈ defs s \/ x ∈ uses s -> is_Some (env !! x)
  | Raised l =>
      exists s inputs, s ∈ ss /\ line s = l /\ step l inputs = None
  | Unbound _ _ => False
  end.

End Checked.

(** The cells below the splitting hint (line 95). *)
Definition after_hint : list stmt :=
  filter (fun s => (95 <? line s)%nat = true) notebook.

(** The arrays of the archive and the two index sets computed from the
    labels. *)
Definition archive_names : list string :=
  ["trainval_dataset"; "trainval_images"; "trainval_labels";
   "test_images"; "test_labels"; "background_indexes"; "foreground_indexes"].

End Views.

(** * Properties *)

(** ** Label index sets *)

Module LabelsFacts.

Import Labels.

Lemma elem_of_np_where_from (cond : list bool) :
  forall (k i : nat),
    i ∈ np_where_from k cond <->
    exists j : nat, i = (k + j)%nat /\ cond !! j = Some true.
Proof.
  induction cond as [|b cond IH]; intros k i; simpl.
  - split; [intros Hin; inversion Hin | intros (j & _ & Hj); discriminate].
  - assert (Htail : i ∈ np_where_from (S k) cond <->
                    exists j, i = (k + S j)%nat /\ cond !! j = Some true).
    { rewrite IH. split; intros (j & -> & Hj); exists j; split; auto; lia. }
    destruct b.
    + rewrite elem_of_cons, Htail. split.
      * intros [-> | (j & -> & Hj)].
        -- exists 0%nat. split; [lia | reflexivity].
        -- exists (S j). split; [reflexivity | exact Hj].
      * intros ([|j] & -> & Hj).
        -- left. lia.
        -- right. exists j. split; [reflexivity | exact Hj].
    + rewrite Htail. split.
      * intros (j & -> & Hj). exists (S j). split; [reflexivity | exact Hj].
      * intros ([|j] & -> & Hj); [discriminate |].
        exists j. split; [reflexivity | exact Hj].
Qed.

Lemma elem_of_np_where (cond : list bool) (i : nat) :
  i ∈ np_where cond <-> cond !! i = Some true.
Proof.
  unfold np_where. rewrite elem_of_np_where_from. split.
  - intros (j & -> & Hj). exact Hj.
  - intros Hi. exists i. split; [reflexivity | exact Hi].
Qed.

Lemma lookup_np_eq (labels : list Z) (v : Z) (i : nat) :
  np_eq labels v !! i = Some true <-> labels !! i = Some v.
Proof.
  unfold np_eq. rewrite list_lookup_fmap.
  destruct (labels !! i) as [l|]; simpl; [|split; discriminate].
  split.
  - intros [= Hl]. apply Z.eqb_eq in Hl. congruence.
  - intros [= ->]. rewrite Z.eqb_refl. reflexivity.
Qed.

Lemma elem_of_background_indexes (labels : list Z) (i : nat) :
  i ∈ background_indexes labels <-> labels !! i = Some 0.
Proof. unfold background_indexes. rewrite elem_of_np_where. apply lookup_np_eq. Qed.

Lemma elem_of_foreground_indexes (labels : list Z) (i : nat) :
  i ∈ foreground_indexes labels <-> labels !! i = Some 1.
Proof. unfold foreground_indexes. rewrite elem_of_np_where. apply lookup_np_eq. Qed.

Lemma np_where_from_lower (cond : list bool) :
  forall k i, i ∈ np_where_from k cond -> (k <= i)%nat.
Proof.
  intros k i Hin. apply elem_of_np_where_from in Hin as (j & -> & _). lia.
Qed.

Lemma NoDup_np_where_from (cond : list bool) :
  forall k, NoDup (np_where_from k cond).
Proof.
  induction cond as [|b cond IH]; intros k; simpl; [constructor|].
  destruct b; [|apply IH].
  constructor; [|apply IH].
  intros Hin. apply np_where_from_lower in Hin. lia.
Qed.

(** C7. When every label of the trainval array is 0 or 1, the background
    index set ([labels == 0]) and the foreground index set ([labels == 1])
    partition the indices of the array: both hold indices of the array
    only, neither repeats an index, and every index of the array is in
    exactly one of the two. *)
Theorem index_sets_partition (trainval_labels : list Z) :
  (forall l, l ∈ trainval_labels -> l = 0 \/ l = 1) ->
  (forall i : nat,
      (i ∈ background_indexes trainval_labels) \/ (i ∈ foreground_indexes trainval_labels) ->
      (i < length trainval_labels)%nat) /\
  NoDup (background_indexes trainval_labels) /\
  NoDup (foreground_indexes trainval_labels) /\
  (forall i : nat, (i < length trainval_labels)%nat ->
      (i ∈ background_indexes trainval_labels /\ i ∉ foreground_indexes trainval_labels) \/
      ((i ∉ background_indexes trainval_labels) /\ i ∈ foreground_indexes trainval_labels)).
Proof.
  intros Hbin. repeat split.
  - intros i [Hi | Hi].
    + apply elem_of_background_indexes in Hi. eapply lookup_lt_Some, Hi.
    + apply elem_of_foreground_indexes in Hi. eapply lookup_lt_Some, Hi.
  - apply NoDup_np_where_from.
  - apply NoDup_np_where_from.
  - intros i Hi.
    destruct (lookup_lt_is_Some_2 trainval_labels i Hi) as [l Hl].
    rewrite !elem_of_background_indexes, !elem_of_foreground_indexes, Hl.
    destruct (Hbin l) as [-> | ->].
    + eapply list_elem_of_lookup_2, Hl.
    + left. split; [reflexivity | discriminate].
    + right. split; [discriminate | reflexivity].
Qed.

Lemma index_sets_partition_witness :
  (forall l, l ∈ [0; 1; 0; 0] -> l = 0 \/ l = 1) /\
  background_indexes [0; 1; 0; 0] = [0; 2; 3]%nat /\
  foreground_indexes [0; 1; 0; 0] = [1]%nat /\
  ((2%nat ∈ background_indexes [0; 1; 0; 0] /\ 2%nat ∉ foreground_indexes [0; 1; 0; 0]) \/
   ((2%nat ∉ background_indexes [0; 1; 0; 0]) /\ 2%nat ∈ foreground_indexes [0; 1; 0; 0])).
Proof.
  assert (Hbin : forall l, l ∈ [0; 1; 0; 0] -> l = 0 \/ l = 1).
  { intros l Hl. repeat (apply elem_of_cons in Hl as [-> | Hl]; [auto |]).
    inversion Hl. }
  split; [exact Hbin |].
  split; [reflexivity |].
  split; [reflexivity |].
  apply (index_sets_partition [0; 1; 0; 0] Hbin). simpl. lia.
Defined.

End LabelsFacts.

(** ** The dataset wrapper *)

Module DatasetFacts.

Import Dataset.

Lemma np_getitem_in_range {A} (l : list A) (i : Z) :
  - Z.of_nat (length l) <= i < Z.of_nat (length l) ->
  exists v, np_getitem (PyArray l) i = Ok v.
Proof.
  intros Hi. unfold np_getitem.
  set (n := Z.of_nat (length l)) in *.
  set (j := if i <? 0 then i + n else i).
  assert (Hj : 0 <= j < n).
  { subst j. destruct (Z.ltb_spec i 0); lia. }
  replace ((0 <=? j) && (j <? n)) with true
    by (symmetry; apply andb_true_iff; split; [apply Z.leb_le | apply Z.ltb_lt]; lia).
  destruct (lookup_lt_is_Some_2 l (Z.to_nat j)) as [v Hv]; [subst n; lia |].
  exists v. rewrite Hv. reflexivity.
Qed.

Lemma np_getitem_out_of_range {A} (l : list A) (i : Z) :
  Z.of_nat (length l) <= i ->
  np_getitem (PyArray l) i = Raise IndexError.
Proof.
  intros Hi. unfold np_getitem.
  destruct (Z.ltb_spec i 0); [lia |].
  replace (i <? Z.of_nat (length l)) with false by (symmetry; apply Z.ltb_ge; lia).
  rewrite andb_false_r. reflexivity.
Qed.

Section WithCallables.

Context {npval obj callable : Type}.
Variable call :
  callable -> npval -> NpArrayDataset npval callable ->
  obj * NpArrayDataset npval callable.
Variable torch_tensor : npval -> obj.

(** [__getitem__] resolved on a dataset whose two reads succeed. *)
Lemma getitem_unfold (self : NpArrayDataset npval callable) (index : Z) (x y : npval) :
  np_getitem (images self) index = Ok x ->
  np_getitem (labels self) index = Ok y ->
  __getitem__ call torch_tensor index self =
    let xs := transformed call torch_tensor (image_transforms self) x self in
    let ys := transformed call torch_tensor (label_transforms xs.2) y xs.2 in
    (Ok (xs.1, ys.1), ys.2).
Proof.
  intros Hx Hy.
  unfold __getitem__, and_then, attr, lift, invoke, ret, transformed.
  rewrite Hx, Hy.
  destruct (image_transforms self) as [f|]; simpl.
  - destruct (call f x self) as [x' self1] eqn:Hf; simpl.
    destruct (label_transforms self1) as [g|]; simpl; [|reflexivity].
    destruct (call g y self1) as [y' self2]. reflexivity.
  - destruct (label_transforms self) as [g|]; simpl; [|reflexivity].
    destruct (call g y self) as [y' self2]. reflexivity.
Qed.

(** C4. On a dataset holding two arrays, at an index in range of both,
    [__getitem__] returns the pair [(x, y)]: [x] is [image_transforms]
    applied to [images[index]] when that field is not [None] and
    [torch.tensor(images[index])] otherwise; [y] is [label_transforms]
    applied to [labels[index]] when that field is not [None] and
    [torch.tensor(labels[index])] otherwise. Both elements are read on
    entry and the label transform is looked up after the image transform
    has run. *)
Theorem getitem_returns_pair
    (self : NpArrayDataset npval callable) (imgs lbls : list npval) (index : Z) :
  images self = PyArray imgs ->
  labels self = PyArray lbls ->
  - Z.of_nat (length imgs) <= index < Z.of_nat (length imgs) ->
  - Z.of_nat (length lbls) <= index < Z.of_nat (length lbls) ->
  exists (x y : npval) (x' y' : obj) (self1 : NpArrayDataset npval callable),
    np_getitem (PyArray imgs) index = Ok x /\
    np_getitem (PyArray lbls) index = Ok y /\
    (x', self1) = match image_transforms self with
                  | Some f => call f x self
                  | None => (torch_tensor x, self)
                  end /\
    y' = match label_transforms self1 with
         | Some g => (call g y self1).1
         | None => torch_tensor y
         end /\
    (__getitem__ call torch_tensor index self).1 = Ok (x', y').
Proof.
  intros Himgs Hlbls Hi Hl.
  destruct (np_getitem_in_range imgs index Hi) as [x Hx].
  destruct (np_getitem_in_range lbls index Hl) as [y Hy].
  destruct (match image_transforms self with
            | Some f => call f x self
            | None => (torch_tensor x, self)
            end) as [x' self1] eqn:Himg.
  exists x, y, x',
    (match label_transforms self1 with
     | Some g => (call g y self1).1
     | None => torch_tensor y
     end), self1.
  split; [exact Hx |]. split; [exact Hy |].
  split; [symmetry; exact Himg |]. split; [reflexivity |].
  rewrite (getitem_unfold self index x y) by congruence.
  cbv zeta. unfold transformed. rewrite Himg. simpl.
  destruct (label_transforms self1); reflexivity.
Qed.

(** An index that [__len__] accepts can still fail in [__getitem__] when
    the labels are shorter than the images. *)
Lemma getitem_short_labels
    (self : NpArrayDataset npval callable) (imgs lbls : list npval) (index : Z) :
  images self = PyArray imgs ->
  labels self = PyArray lbls ->
  Z.of_nat (length lbls) <= index < Z.of_nat (length imgs) ->
  __getitem__ call torch_tensor index self = (Raise IndexError, self).
Proof.
  intros Himgs Hlbls Hi.
  destruct (np_getitem_in_range imgs index) as [x Hx]; [lia |].
  unfold __getitem__, and_then, attr, lift.
  rewrite Himgs, Hx, Hlbls, np_getitem_out_of_range by lia. reflexivity.
Qed.

(** C8. [__len__] is the size of the first axis of the images array,
    whatever was passed as labels: the constructor stores its arguments
    unchecked and [__len__] never looks at the labels, so a dataset built
    with fewer labels than images reports the number of images. *)
Theorem len_ignores_labels
    (imgs : list npval) (lbls : pyarr npval) (it lt : option callable) :
  images (__init__ (PyArray imgs) lbls it lt) = PyArray imgs /\
  labels (__init__ (PyArray imgs) lbls it lt) = lbls /\
  __len__ (__init__ (PyArray imgs) lbls it lt)
    = (Ok (length imgs), __init__ (PyArray imgs) lbls it lt).
Proof. repeat split. Qed.

(** C9. With side-effect-free transforms, [__getitem__] leaves the
    dataset as it found it: the images array, the labels array and the
    two transform fields are unchanged, at every index. *)
Theorem getitem_preserves_dataset :
  pure_transforms call ->
  forall (index : Z) (self : NpArrayDataset npval callable),
    (__getitem__ call torch_tensor index self).2 = self.
Proof.
  intros Hpure index self.
  unfold __getitem__, and_then, attr, lift, invoke, ret.
  destruct (np_getitem (images self) index) as [x|e]; [|reflexivity].
  destruct (np_getitem (labels self) index) as [y|e]; [|reflexivity].
  assert (Hcall : forall f v, call f v self = ((call f v self).1, self)).
  { intros f v. specialize (Hpure f v self).
    destruct (call f v self) as [o s]. simpl in *. congruence. }
  destruct (image_transforms self) as [f|].
  - rewrite (Hcall f x).
    destruct (label_transforms self) as [g|]; [|reflexivity].
    rewrite (Hcall g y). reflexivity.
  - simpl. destruct (label_transforms self) as [g|]; [|reflexivity].
    rewrite (Hcall g y). reflexivity.
Qed.

End WithCallables.

Lemma getitem_returns_pair_witness :
  (Dataset.__getitem__ Example.call Example.torch_tensor 1 Example.dataset).1 = Ok (40, 1).
Proof.
  destruct (getitem_returns_pair Example.call Example.torch_tensor
              Example.dataset [10; 20; 30] [0; 1; 0] 1)
    as (x & y & x' & y' & self1 & Hx & Hy & Himg & Hlbl & Hget);
    [reflexivity | reflexivity | simpl; lia | simpl; lia |].
  vm_compute in Hx, Hy.
  injection Hx as <-. injection Hy as <-.
  injection Himg as -> ->. subst y'.
  exact Hget.
Defined.

Lemma getitem_preserves_dataset_witness :
  pure_transforms Example.call /\
  (Dataset.__getitem__ Example.call Example.torch_tensor (-1) Example.dataset).2
    = Example.dataset.
Proof.
  assert (Hpure : pure_transforms Example.call).
  { intros f v self. reflexivity. }
  split; [exact Hpure |].
  apply (getitem_preserves_dataset Example.call Example.torch_tensor Hpure).
Defined.

Example ragged_len_getitem :
  (Dataset.__len__ Example.ragged).1 = Ok 3%nat /\
  (Dataset.__getitem__ Example.call Example.torch_tensor 2 Example.ragged).1
    = Raise IndexError.
Proof. split; reflexivity. Qed.

End DatasetFacts.

(** ** The train/validation split *)

Module NotebookFacts.

Import Labels Notebook.

Lemma keeps_ratio_needs_array (tol : Q) (trainval_labels : list Z) :
  ~ keeps_ratio tol trainval_labels PyEllipsis.
Proof. intros (part & Hpart & _). discriminate. Qed.

(** The claim of C2 read on the code fails: with the labels [0; 1; 0; 0]
    and the widest tolerance there is (a ratio lies between 0 and 1), the
    labels the notebook gives its training and validation datasets do not
    keep the class ratio, since they are no arrays at all. *)
Lemma split_keeps_ratio_fails :
  ~ (keeps_ratio 1 [0; 1; 0; 0] (Dataset.labels (train_set (npval := Z) tt)) /\
     keeps_ratio 1 [0; 1; 0; 0] (Dataset.labels (validation_set (npval := Z) tt))).
Proof. intros [Htrain _]. exact (keeps_ratio_needs_array _ _ Htrain). Qed.

(** C2, amended. The notebook performs no split of its own. From the
    trainval labels it computes the positions of the background labels
    and of the foreground labels, and it builds the training and the
    validation dataset from blank images and labels, on which neither
    [__len__] nor [__getitem__] returns. *)
Theorem split_left_blank {npval obj callable : Type}
    (call : callable -> npval -> Dataset.NpArrayDataset npval callable ->
            obj * Dataset.NpArrayDataset npval callable)
    (torch_tensor : npval -> obj)
    (image_transforms : callable) (trainval_labels : list Z) :
  (forall i : nat,
      i ∈ background_indexes trainval_labels <-> trainval_labels !! i = Some 0) /\
  (forall i : nat,
      i ∈ foreground_indexes trainval_labels <-> trainval_labels !! i = Some 1) /\
  Dataset.images (train_set (npval := npval) image_transforms) = PyEllipsis /\
  Dataset.labels (train_set (npval := npval) image_transforms) = PyEllipsis /\
  Dataset.images (validation_set (npval := npval) image_transforms) = PyEllipsis /\
  Dataset.labels (validation_set (npval := npval) image_transforms) = PyEllipsis /\
  (Dataset.__len__ (train_set (npval := npval) image_transforms)).1
    = Raise AttributeError /\
  (Dataset.__len__ (validation_set (npval := npval) image_transforms)).1
    = Raise AttributeError /\
  (forall index,
      (Dataset.__getitem__ call torch_tensor index (train_set image_transforms)).1
        = Raise TypeError /\
      (Dataset.__getitem__ call torch_tensor index (validation_set image_transforms)).1
        = Raise TypeError).
Proof.
  split; [intros i; apply LabelsFacts.elem_of_background_indexes |].
  split; [intros i; apply LabelsFacts.elem_of_foreground_indexes |].
  repeat split.
Qed.

End NotebookFacts.

(** ** The network template *)

Module ModelFacts.

Import Model.

Lemma bind_raise {A B} (e : exn) (k : A -> result B) :
  Py.bind (Raise e) k = Raise e.
Proof. reflexivity. Qed.

(** The cell adds no handling of its own: whatever leaves [model_fn]
    leaves the cell. *)
Lemma model_cell_propagates {module : Type} `{nn module} (e : exn) :
  model_fn 2 = Raise e -> model_cell = Raise e.
Proof. intros Hfn. unfold model_cell. rewrite Hfn. reflexivity. Qed.

(** C6. The constructors of [model_fn] run in source order; when the
    three before the first blank return and the library raises on the
    blank [in_channels], that very exception leaves [model_fn] for every
    [num_classes], and leaves the cell that builds the model: nothing
    catches, retries or reports it. *)
Theorem model_fn_propagates {module : Type} `{nn module}
    (m1 m2 m3 : module) (e : exn) (num_classes : Z) :
  Conv2d (HInt 3) (HInt 32) (HInt 3) (HInt 1) = Ok m1 ->
  BatchNorm2d (HInt 32) = Ok m2 ->
  ReLU = Ok m3 ->
  Conv2d HEllipsis (HInt 32) (HInt 3) (HInt 1) = Raise e ->
  model_fn num_classes = Raise e /\ model_cell = Raise e.
Proof.
  intros H1 H2 H3 H4.
  assert (Hfn : forall n, model_fn n = Raise e).
  { intros n. unfold model_fn. rewrite H1. simpl. rewrite H2. simpl.
    rewrite H3. simpl. rewrite H4. reflexivity. }
  split; [apply Hfn | apply model_cell_propagates, Hfn].
Qed.

Lemma model_fn_propagates_witness :
  model_fn (module := string) 2 = Raise TypeError /\
  model_cell (module := string) = Raise TypeError.
Proof.
  apply (model_fn_propagates (module := string) "Conv2d" "BatchNorm2d" "ReLU");
    reflexivity.
Defined.

End ModelFacts.

(** ** The training engine and its handlers *)

Module EngineFacts.

Import Engine.

Lemma lookup_computed_metrics {value : Type} (ev : evaluation value) :
  computed_metrics ev !! "accuracy" = Some (accuracy ev) /\
  computed_metrics ev !! "nll" = Some (nll ev).
Proof.
  unfold computed_metrics. split.
  - apply lookup_insert_eq.
  - rewrite lookup_insert_ne by discriminate. apply lookup_insert_eq.
Qed.

Lemma string_length_app (s t : string) :
  String.length (s +:+ t) = (String.length s + String.length t)%nat.
Proof. induction s as [|a s IH]; simpl; [reflexivity | rewrite IH; reflexivity]. Qed.

Lemma string_app_inj_r (t : string) :
  forall s1 s2 : string, s1 +:+ t = s2 +:+ t -> s1 = s2.
Proof.
  induction s1 as [|a s1 IH]; intros [|b s2] Heq.
  - reflexivity.
  - apply (f_equal String.length) in Heq.
    rewrite !string_length_app in Heq. simpl in Heq. lia.
  - apply (f_equal String.length) in Heq.
    rewrite !string_length_app in Heq. simpl in Heq. lia.
  - cbn in Heq. injection Heq as -> Heq. f_equal. apply IH. exact Heq.
Qed.

Local Opaque patience n_saved.

Section WithValues.

Context {value : Type} `{Metric value} {state_dict : Type}.
Variable model_name : string.

Abbreviation world := (world value state_dict).
Abbreviation evaluation := (evaluation value).
Abbreviation epoch_obs := (epoch_obs value state_dict).

Lemma score_function_nll (e : engine value) (v : value) :
  metrics e !! "nll" = Some v -> score_function e = Ok (neg v).
Proof. intros Hv. unfold score_function, dict_get. rewrite Hv. reflexivity. Qed.

Lemma val_evaluator_run_ok (ev : evaluation) (w : world) :
  exists w',
    val_evaluator_run ev w = Ok w' /\
    stopper w' = stopper_step (neg (nll ev)) (stopper w) /\
    trainer_epoch w' = trainer_epoch w /\
    model w' = model w /\
    train_evaluator w' = train_evaluator w /\
    val_evaluator w' = {| metrics := computed_metrics ev |} /\
    saved w' = saved w /\
    saved_models w' = saved_models w /\
    training_history w' = training_history w /\
    validation_history w' = validation_history w /\
    last_epoch w' = last_epoch w.
Proof.
  unfold val_evaluator_run, handler, EarlyStopping_call.
  rewrite (score_function_nll _ (nll ev)) by apply lookup_computed_metrics.
  unfold stopper, stopper_step. destruct w as [ep t sd tr va c [best|] sv dir th vh le_]; simpl.
  - destruct (le (neg (nll ev)) best).
    + destruct (patience <=? S c)%nat; eexists; (split; [reflexivity |]); simpl;
        rewrite ?orb_true_r, ?orb_false_r; repeat split.
    + eexists; split; [reflexivity |]; repeat split.
  - eexists; split; [reflexivity |]; repeat split.
Qed.


Lemma checkpointer_eq (w : world) (files : gmap string state_dict) :
  saved_models w = Some files ->
  checkpointer model_name w =
    let fname := checkpoint_name dataset_name model_name (trainer_epoch w) in
    Ok (if (n_saved <? length (saved w ++ [fname]))%nat
        then with_checkpoints (tail (saved w ++ [fname]))
               (Some (delete (hd fname (saved w ++ [fname])) (<[fname := model w]> files))) w
        else with_checkpoints (saved w ++ [fname]) (Some (<[fname := model w]> files)) w).
Proof.
  intros Hdir. unfold checkpointer. rewrite Hdir. cbv zeta.
  destruct (n_saved <? _)%nat; [|reflexivity].
  destruct (saved w ++ _) eqn:Happ; [|reflexivity].
  destruct (saved w); discriminate.
Qed.

Lemma log_training_results_eq (ev : evaluation) (w : world) (la ll : list value) :
  training_history w !! "accuracy" = Some la ->
  training_history w !! "loss" = Some ll ->
  log_training_results ev w =
    Ok (with_logs
          (<["loss" := ll ++ [nll ev]]>
             (<["accuracy" := la ++ [times100 (accuracy ev)]]> (training_history w)))
          (validation_history w) (last_epoch w ++ [0])
          (with_evaluators {| metrics := computed_metrics ev |} (val_evaluator w) w)).
Proof.
  intros Ha Hl. unfold log_training_results, train_evaluator_run.
  cbn [Py.bind train_evaluator with_evaluators metrics].
  unfold dict_get at 1.
  rewrite (proj1 (lookup_computed_metrics ev)). cbn [Py.bind].
  unfold dict_get at 1.
  rewrite (proj2 (lookup_computed_metrics ev)). cbn [Py.bind].
  unfold dict_append, dict_get. cbn [training_history with_evaluators].
  rewrite Ha. cbn [Py.bind].
  rewrite lookup_insert_ne by discriminate. rewrite Hl. reflexivity.
Qed.

Lemma log_validation_results_ok (ev : evaluation) (w : world) (va vl : list value) :
  validation_history w !! "accuracy" = Some va ->
  validation_history w !! "loss" = Some vl ->
  exists w',
    log_validation_results ev w = Ok w' /\
    stopper w' = stopper_step (neg (nll ev)) (stopper w) /\
    trainer_epoch w' = trainer_epoch w /\
    model w' = model w /\
    saved w' = saved w /\
    saved_models w' = saved_models w /\
    training_history w' = training_history w /\
    validation_history w' =
      <["loss" := vl ++ [nll ev]]>
        (<["accuracy" := va ++ [times100 (accuracy ev)]]> (validation_history w)) /\
    last_epoch w' = last_epoch w.
Proof.
  intros Ha Hl. unfold log_validation_results.
  destruct (val_evaluator_run_ok ev w)
    as (w1 & -> & Hst & Hep & Hmod & Htr & Hva & Hsv & Hdir & Hth & Hvh & Hle).
  cbn [Py.bind]. rewrite Hva. cbn [metrics].
  unfold dict_get at 1.
  rewrite (proj1 (lookup_computed_metrics ev)). cbn [Py.bind].
  unfold dict_get at 1.
  rewrite (proj2 (lookup_computed_metrics ev)). cbn [Py.bind].
  unfold dict_append, dict_get. rewrite Hvh, Ha. cbn [Py.bind].
  rewrite lookup_insert_ne by discriminate. rewrite Hl. cbn [Py.bind].
  eexists. split; [reflexivity |].
  unfold stopper in *. simpl. rewrite Hth, Hle. repeat split; assumption.
Qed.


Lemma ready_dir (w : world) : ready w -> exists files, saved_models w = Some files.
Proof. intros ([files Hf] & _). eauto. Qed.

Lemma run_epoch_ok (o : epoch_obs) (w : world) :
  ready w ->
  exists w',
    run_epoch model_name o w = Ok w' /\
    trainer_epoch w' = S (trainer_epoch w) /\
    model w' = obs_model o /\
    stopper w' = stopper_step (neg (nll (obs_val o))) (stopper w) /\
    checkpoints w' =
      keep_recent (checkpoint_name dataset_name model_name (S (trainer_epoch w)))
                  (obs_model o) (checkpoints w) /\
    training_history w' = appended (training_history w) (obs_train o) /\
    validation_history w' = appended (validation_history w) (obs_val o) /\
    last_epoch w' = last_epoch w ++ [0].
Proof.
  intros ([files Hdir] & [la Hla] & [ll Hll] & [va Hva] & [vl Hvl]).
  unfold run_epoch, epoch_completed_handlers, fire.
  rewrite (checkpointer_eq _ files) by exact Hdir.
  cbv zeta. cbn [Py.bind trainer_epoch model saved with_trainer].
  set (fname := checkpoint_name dataset_name model_name (S (trainer_epoch w))).
  set (w1 := if (n_saved <? length (saved w ++ [fname]))%nat then _ else _).
  assert (Hw1 : training_history w1 = training_history w /\
                validation_history w1 = validation_history w /\
                last_epoch w1 = last_epoch w /\
                stopper w1 = stopper w /\
                trainer_epoch w1 = S (trainer_epoch w) /\
                model w1 = obs_model o /\
                checkpoints w1 = keep_recent fname (obs_model o) (checkpoints w)).
  { unfold checkpoints, keep_recent. rewrite Hdir. subst w1.
    destruct (n_saved <? _)%nat; repeat split. }
  destruct Hw1 as (Hth1 & Hvh1 & Hle1 & Hst1 & Hep1 & Hmod1 & Hck1).
  rewrite (log_training_results_eq _ w1 la ll) by congruence.
  cbn [Py.bind].
  set (w2 := with_logs _ _ _ _).
  destruct (log_validation_results_ok (obs_val o) w2 va vl)
    as (w3 & -> & Hst & Hep & Hmod & Hsv & Hdir3 & Hth & Hvh & Hle).
  { subst w2. cbn. congruence. }
  { subst w2. cbn. congruence. }
  exists w3. split; [reflexivity |].
  unfold appended. rewrite Hla, Hll, Hva, Hvl. cbn [default].
  unfold checkpoints in *. unfold stopper in *.
  rewrite Hep, Hmod, Hst, Hsv, Hdir3, Hth, Hvh, Hle. subst w2. cbn.
  inversion Hst1. inversion Hck1.
  rewrite Hth1, Hvh1, Hle1. repeat split; try congruence.
  exact Hck1.
Qed.


Lemma history_length_appended (h : gmap string (list value)) (ev : evaluation) :
  history_length (appended h ev) "accuracy" = S (history_length h "accuracy") /\
  history_length (appended h ev) "loss" = S (history_length h "loss").
Proof.
  unfold history_length, appended. cbv zeta. split.
  - rewrite lookup_insert_ne by discriminate. rewrite lookup_insert_eq.
    rewrite length_app. destruct (h !! "accuracy"); simpl; lia.
  - rewrite lookup_insert_eq.
    rewrite length_app. destruct (h !! "loss"); simpl; lia.
Qed.

Lemma is_Some_appended (h : gmap string (list value)) (ev : evaluation) :
  is_Some (appended h ev !! "accuracy") /\ is_Some (appended h ev !! "loss").
Proof.
  unfold appended. cbv zeta. split.
  - rewrite lookup_insert_ne by discriminate. rewrite lookup_insert_eq. eauto.
  - rewrite lookup_insert_eq. eauto.
Qed.

Lemma run_epoch_ready (o : epoch_obs) (w w' : world) :
  ready w -> run_epoch model_name o w = Ok w' -> ready w'.
Proof.
  intros Hready Hrun.
  destruct (run_epoch_ok o w Hready)
    as (w1 & Hrun1 & _ & _ & _ & Hck & Hth & Hvh & _).
  assert (w1 = w') as -> by congruence.
  destruct (ready_dir w Hready) as [files Hdir].
  unfold ready. rewrite Hth, Hvh.
  repeat split; try apply is_Some_appended.
  unfold checkpoints, keep_recent in Hck. rewrite Hdir in Hck.
  destruct (n_saved <? _)%nat; injection Hck as _ ->; eauto.
Qed.

Lemma run_epoch_history_lengths (o : epoch_obs) (w w' : world) :
  ready w -> run_epoch model_name o w = Ok w' ->
  history_lengths w' = S <$> history_lengths w /\
  length (last_epoch w') = S (length (last_epoch w)).
Proof.
  intros Hready Hrun.
  destruct (run_epoch_ok o w Hready)
    as (w1 & Hrun1 & _ & _ & _ & _ & Hth & Hvh & Hle).
  assert (w1 = w') as -> by congruence.
  unfold history_lengths. rewrite Hth, Hvh, Hle.
  destruct (history_length_appended (training_history w) (obs_train o)) as [-> ->].
  destruct (history_length_appended (validation_history w) (obs_val o)) as [-> ->].
  split; [reflexivity |]. rewrite length_app. simpl. lia.
Qed.

Lemma trainer_loop_histories (epochs : list epoch_obs) :
  forall w : world,
    ready w ->
    history_lengths w = replicate 4 (trainer_epoch w) ->
    length (last_epoch w) = trainer_epoch w ->
    exists w',
      trainer_loop model_name epochs w = Ok w' /\
      ready w' /\
      history_lengths w' = replicate 4 (trainer_epoch w') /\
      length (last_epoch w') = trainer_epoch w' /\
      (trainer_epoch w' <= trainer_epoch w + length epochs)%nat /\
      (should_terminate w' = false ->
       trainer_epoch w' = (trainer_epoch w + length epochs)%nat).
Proof.
  induction epochs as [|o epochs IH]; intros w Hready Hlen Hlast;
    cbn [trainer_loop length].
  - exists w. split; [reflexivity |]. split; [exact Hready |].
    split; [exact Hlen |]. split; [exact Hlast |]. split; [lia | intros _; lia].
  - destruct (should_terminate w) eqn:Hstop.
    + exists w. split; [reflexivity |]. split; [exact Hready |].
      split; [exact Hlen |]. split; [exact Hlast |].
      split; [lia | congruence].
    + destruct (run_epoch_ok o w Hready) as (w1 & Hrun & Hep & _).
      rewrite Hrun. cbn [Py.bind].
      destruct (run_epoch_history_lengths o w w1 Hready Hrun) as [Hlen1 Hlast1].
      destruct (IH w1) as (w' & Hloop & Hready' & Hlen' & Hlast' & Hle & Hall).
      * eapply run_epoch_ready; eauto.
      * rewrite Hlen1, Hlen, Hep. reflexivity.
      * rewrite Hlast1, Hlast, Hep. reflexivity.
      * exists w'. split; [exact Hloop |]. split; [exact Hready' |].
        split; [exact Hlen' |]. split; [exact Hlast' |]. split; [lia |].
        intros Hns. rewrite (Hall Hns). lia.
Qed.

Lemma setup_ok (model0 : state_dict) (dir0 : option (gmap string state_dict)) :
  exists w0 : world,
    setup model0 dir0 = Ok w0 /\
    ready w0 /\
    trainer_epoch w0 = 0%nat /\
    should_terminate w0 = false /\
    saved w0 = [] /\
    saved_models w0 = Some (default ∅ dir0) /\
    history_lengths w0 = replicate 4 0%nat /\
    last_epoch w0 = [].
Proof.
  unfold setup, ModelCheckpoint.
  destruct dir0 as [files|]; cbn [andb Py.bind];
    (eexists; split; [reflexivity |]); repeat split; cbn; eauto.
Qed.


(** *** Early stopping *)

Lemma stopper_step_stale (score best : value) (c : nat) (t : bool) :
  le score best = true ->
  stopper_step score (c, Some best, t) = (S c, Some best, t || (patience <=? S c)%nat).
Proof. intros Hle. unfold stopper_step. rewrite Hle. reflexivity. Qed.

Lemma stale_flag (t : bool) (c n : nat) :
  (t || (patience <=? S c)%nat) || ((0 <? n)%nat && (patience <=? S c + n)%nat)
  = t || ((0 <? S n)%nat && (patience <=? c + S n)%nat).
Proof.
  replace (c + S n)%nat with (S c + n)%nat by lia.
  destruct t; [reflexivity |]. rewrite !orb_false_l.
  destruct (Nat.leb_spec patience (S c)), (Nat.leb_spec patience (S c + n)),
    (Nat.ltb_spec 0 n), (Nat.ltb_spec 0 (S n)); try reflexivity; lia.
Qed.

Lemma val_rounds_stale (evs : list evaluation) :
  forall (w : world) (best : value),
    best_score w = Some best ->
    Forall (fun ev => le (neg (nll ev)) best = true) evs ->
    exists w',
      fire (val_evaluator_run <$> evs) w = Ok w' /\
      best_score w' = Some best /\
      should_terminate w' =
        should_terminate w
        || ((0 <? length evs)%nat && (patience <=? counter w + length evs)%nat).
Proof.
  induction evs as [|ev evs IH]; intros w best Hbest Hstale.
  - exists w. split; [reflexivity |]. split; [exact Hbest |].
    cbn. rewrite orb_false_r. reflexivity.
  - inversion Hstale as [|? ? Hev Hevs]; subst.
    destruct (val_evaluator_run_ok ev w) as (w1 & Hrun & Hst & _).
    unfold stopper in Hst. rewrite Hbest, (stopper_step_stale _ _ _ _ Hev) in Hst.
    injection Hst as Hc Hb Ht.
    destruct (IH w1 best Hb Hevs) as (w' & Hfire & Hbest' & Hflag).
    exists w'. cbn [fmap list_fmap fire]. rewrite Hrun. cbn [Py.bind].
    split; [exact Hfire |]. split; [exact Hbest' |].
    rewrite Hflag, Ht, Hc. cbn [length]. apply stale_flag.
Qed.

Lemma trainer_loop_stale (epochs : list epoch_obs) :
  forall (w : world) (best : value),
    ready w ->
    best_score w = Some best ->
    Forall (fun o => le (neg (nll (obs_val o))) best = true) epochs ->
    exists w',
      trainer_loop model_name epochs w = Ok w' /\
      should_terminate w' =
        should_terminate w
        || ((0 <? length epochs)%nat && (patience <=? counter w + length epochs)%nat).
Proof.
  induction epochs as [|o epochs IH]; intros w best Hready Hbest Hstale;
    cbn [trainer_loop].
  - exists w. split; [reflexivity |]. cbn. rewrite orb_false_r. reflexivity.
  - destruct (should_terminate w) eqn:Hstop.
    + exists w. split; [reflexivity |]. rewrite Hstop. reflexivity.
    + inversion Hstale as [|? ? Ho Hos]; subst.
      destruct (run_epoch_ok o w Hready) as (w1 & Hrun & _ & _ & Hst & _).
      unfold stopper in Hst.
      rewrite Hbest, Hstop, (stopper_step_stale _ _ _ _ Ho) in Hst.
      injection Hst as Hc Hb Ht.
      destruct (IH w1 best) as (w' & Hloop & Hflag); auto.
      { eapply run_epoch_ready; eauto. }
      exists w'. rewrite Hrun. cbn [Py.bind]. split; [exact Hloop |].
      rewrite Hflag, Ht, Hc. cbn [length].
      exact (stale_flag false (counter w) (length epochs)).
Qed.

Lemma trainer_loop_terminated (epochs : list epoch_obs) (w : world) :
  should_terminate w = true -> trainer_loop model_name epochs w = Ok w.
Proof. intros Hstop. destruct epochs; cbn [trainer_loop]; rewrite ?Hstop; reflexivity. Qed.

Lemma trainer_loop_stale_epochs (epochs : list epoch_obs) :
  forall (w : world) (best : value),
    ready w ->
    best_score w = Some best ->
    Forall (fun o => le (neg (nll (obs_val o))) best = true) epochs ->
    should_terminate w = false ->
    (counter w < patience)%nat ->
    exists w',
      trainer_loop model_name epochs w = Ok w' /\
      trainer_epoch w' =
        (trainer_epoch w + Nat.min (length epochs) (patience - counter w))%nat.
Proof.
  induction epochs as [|o epochs IH]; intros w best Hready Hbest Hstale Hstop Hc;
    cbn [trainer_loop length].
  - exists w. split; [reflexivity |]. cbn [Nat.min]. lia.
  - rewrite Hstop. inversion Hstale as [|? ? Ho Hos]; subst.
    destruct (run_epoch_ok o w Hready) as (w1 & Hrun & Hep & _ & Hst & _).
    unfold stopper in Hst.
    rewrite Hbest, Hstop, (stopper_step_stale _ _ _ _ Ho) in Hst.
    injection Hst as Hc1 Hb1 Ht1.
    rewrite Hrun. cbn [Py.bind].
    destruct (Nat.leb_spec patience (S (counter w))) as [Hreached | Hbelow].
    + exists w1. split; [apply trainer_loop_terminated; exact Ht1 |].
      rewrite Hep. lia.
    + destruct (IH w1 best) as (w' & Hloop & Hcount); auto.
      { eapply run_epoch_ready; eauto. }
      { lia. }
      exists w'. split; [exact Hloop |]. rewrite Hcount, Hep, Hc1. lia.
Qed.

Lemma run_epoch_improved (o : epoch_obs) (w : world) (best : value) :
  ready w ->
  best_score w = Some best ->
  le (neg (nll (obs_val o))) best = false ->
  exists w',
    run_epoch model_name o w = Ok w' /\
    counter w' = 0%nat /\
    best_score w' = Some (neg (nll (obs_val o))) /\
    should_terminate w' = should_terminate w.
Proof.
  intros Hready Hbest Himp.
  destruct (run_epoch_ok o w Hready) as (w1 & Hrun & _ & _ & Hst & _).
  unfold stopper, stopper_step in Hst. rewrite Hbest, Himp in Hst.
  injection Hst as Hc Hb Ht.
  exists w1. auto.
Qed.

Local Transparent patience.

(** C1. The score the early-stopping handler monitors is the negation of
    the validation evaluator's ["nll"] metric. While that score does not
    exceed the best score on record, every completion of the validation
    evaluator counts one more round, and the trainer is terminated
    exactly when the count reaches 10: not before, and at the latest
    after 10 such completions in a row. A training run then halts: from a
    trainer that is not yet terminated, a run over epochs that all fail
    to improve completes those that are left to the count of 10 and no
    more, however many epochs were asked for. An epoch that does improve
    puts the count back to 0 and records its score, so only consecutive
    failures add up. *)
Theorem early_stopping_after_patience
    (w : world) (best : value) (epochs : list epoch_obs) :
  ready w ->
  best_score w = Some best ->
  Forall (fun o => le (neg (nll (obs_val o))) best = true) epochs ->
  (forall (e : engine value) (v : value),
      metrics e !! "nll" = Some v -> score_function e = Ok (neg v)) /\
  (exists w',
      fire (val_evaluator_run <$> (obs_val <$> epochs)) w = Ok w' /\
      best_score w' = Some best /\
      should_terminate w' =
        should_terminate w
        || ((0 <? length epochs)%nat && (10 <=? counter w + length epochs)%nat)) /\
  (exists w',
      trainer_loop model_name epochs w = Ok w' /\
      should_terminate w' =
        should_terminate w
        || ((0 <? length epochs)%nat && (10 <=? counter w + length epochs)%nat) /\
      (should_terminate w = false -> (counter w < 10)%nat ->
       trainer_epoch w' =
         (trainer_epoch w + Nat.min (length epochs) (10 - counter w))%nat)) /\
  (forall o : epoch_obs,
      le (neg (nll (obs_val o))) best = false ->
      exists w',
        run_epoch model_name o w = Ok w' /\
        counter w' = 0%nat /\
        best_score w' = Some (neg (nll (obs_val o))) /\
        should_terminate w' = should_terminate w).
Proof.
  intros Hready Hbest Hstale.
  split; [exact score_function_nll |]. split; [|split].
  - destruct (val_rounds_stale (obs_val <$> epochs) w best Hbest)
      as (w' & Hfire & Hbest' & Hflag).
    { apply Forall_fmap. exact Hstale. }
    exists w'. split; [exact Hfire |]. split; [exact Hbest' |].
    rewrite length_fmap in Hflag. exact Hflag.
  - destruct (trainer_loop_stale epochs w best Hready Hbest Hstale) as (w' & Hloop & Hflag).
    exists w'. split; [exact Hloop |]. split; [exact Hflag |].
    intros Hstop Hc.
    destruct (trainer_loop_stale_epochs epochs w best Hready Hbest Hstale Hstop Hc)
      as (w'' & Hloop' & Hcount).
    assert (w'' = w') as -> by congruence. exact Hcount.
  - intros o Himp. exact (run_epoch_improved o w best Hready Hbest Himp).
Qed.

Local Opaque patience.

(** *** History lists *)

(** C10, amended. From the notebook's initial state, after any number of
    epochs the training loop returns, and at that point each of the four
    history lists (training accuracy and loss, validation accuracy and
    loss) has as many entries as epochs were completed: every completed
    epoch has appended exactly one entry to each. *)
Theorem histories_track_epochs
    (model0 : state_dict) (dir0 : option (gmap string state_dict))
    (epochs : list epoch_obs) :
  exists w0 w : world,
    setup model0 dir0 = Ok w0 /\
    trainer_loop model_name epochs w0 = Ok w /\
    history_lengths w = replicate 4 (trainer_epoch w) /\
    (trainer_epoch w <= length epochs)%nat /\
    (should_terminate w = false -> trainer_epoch w = length epochs).
Proof.
  destruct (setup_ok model0 dir0)
    as (w0 & Hsetup & Hready & Hep & _ & _ & _ & Hlen & Hlast).
  destruct (trainer_loop_histories epochs w0) as (w & Hloop & _ & Hlens & _ & Hle & Hall).
  - exact Hready.
  - rewrite Hlen, Hep. reflexivity.
  - rewrite Hlast, Hep. reflexivity.
  - exists w0, w. rewrite Hep in *. auto.
Qed.

(** *** Checkpoints *)

Lemma checkpoint_name_inj (j k : nat) :
  checkpoint_name dataset_name model_name j = checkpoint_name dataset_name model_name k ->
  j = k.
Proof.
  unfold checkpoint_name. intros Heq.
  do 4 apply String.app_inj in Heq.
  apply string_app_inj_r in Heq. apply (inj pretty) in Heq. exact Heq.
Qed.

Local Transparent n_saved.

Lemma recent_checkpoints_low (k : nat) :
  (k < n_saved)%nat ->
  recent_checkpoints model_name (S k) =
    recent_checkpoints model_name k ++ [checkpoint_name dataset_name model_name (S k)].
Proof.
  unfold recent_checkpoints, n_saved. intros Hk.
  destruct k as [|[|k]]; [reflexivity | reflexivity | lia].
Qed.

Lemma recent_checkpoints_high (k : nat) :
  recent_checkpoints model_name (S (S k)) =
    [checkpoint_name dataset_name model_name (S k);
     checkpoint_name dataset_name model_name (S (S k))].
Proof.
  unfold recent_checkpoints, n_saved.
  replace (Nat.min (S (S k)) 2) with 2%nat by lia.
  replace (S (S k) - 2)%nat with k by lia. reflexivity.
Qed.

Lemma checkpointed_step (done : list epoch_obs) (o : epoch_obs) (w w' : world) :
  checkpointed model_name done w ->
  trainer_epoch w' = S (trainer_epoch w) ->
  checkpoints w' =
    keep_recent (checkpoint_name dataset_name model_name (S (trainer_epoch w)))
                (obs_model o) (checkpoints w) ->
  checkpointed model_name (done ++ [o]) w'.
Proof.
  intros (Hep & Hsaved & files & Hdir & Hkept) Hep' Hck.
  unfold checkpoints, keep_recent in Hck. rewrite Hdir, Hsaved, Hep in Hck.
  unfold checkpointed, kept_files in *. rewrite length_app. cbn [length].
  replace (length done + 1)%nat with (S (length done)) by lia.
  assert (Hlast : (done ++ [o]) !! length done = Some o).
  { rewrite lookup_app_r by lia. rewrite Nat.sub_diag. reflexivity. }
  assert (Hold : forall j, (j < length done)%nat -> (done ++ [o]) !! j = done !! j).
  { intros j Hj. apply lookup_app_l. exact Hj. }
  remember (length done) as k eqn:Hk. clear Hk.
  set (name := checkpoint_name dataset_name model_name) in *.
  assert (Hne : forall i j, i <> j -> name i <> name j).
  { intros i j Hij Heq. apply Hij. exact (checkpoint_name_inj i j Heq). }
  split; [congruence |].
  destruct k as [|[|k]].
  - (* first checkpoint *)
    injection Hck as Hsv Hfiles. split; [exact Hsv |].
    eexists. split; [exact Hfiles |].
    intros j Hj. assert (j = 0%nat) as -> by lia.
    rewrite lookup_insert_eq, Hlast. reflexivity.
  - (* second checkpoint *)
    injection Hck as Hsv Hfiles. split; [exact Hsv |].
    eexists. split; [exact Hfiles |].
    intros j Hj.
    destruct (decide (j = 1%nat)) as [-> | Hj1].
    + rewrite lookup_insert_eq, Hlast. reflexivity.
    + assert (j = 0%nat) as -> by lia.
      rewrite lookup_insert_ne by (apply Hne; lia).
      rewrite (Hkept 0%nat), Hold by lia. reflexivity.
  - (* the oldest of three is removed *)
    rewrite recent_checkpoints_high in Hck. cbn in Hck.
    injection Hck as Hsv Hfiles. split.
    { rewrite Hsv. symmetry. apply recent_checkpoints_high. }
    eexists. split; [exact Hfiles |].
    intros j Hj. fold name.
    destruct (decide (j = S (S k))) as [-> | Hj2].
    + rewrite lookup_delete_ne by (apply Hne; lia).
      rewrite lookup_insert_eq, Hlast.
      replace (S (S (S k)) + n_saved <=? S (S (S k)))%nat with false
        by (symmetry; apply Nat.leb_gt; unfold n_saved; lia).
      reflexivity.
    + destruct (decide (j = k)) as [-> | Hjk].
      * rewrite lookup_delete_eq.
        replace (S k + n_saved <=? S (S (S k)))%nat with true
          by (symmetry; apply Nat.leb_le; unfold n_saved; lia).
        reflexivity.
      * rewrite lookup_delete_ne by (apply Hne; lia).
        rewrite lookup_insert_ne by (apply Hne; lia).
        rewrite (Hkept j), Hold by lia.
        destruct (Nat.leb_spec (S j + n_saved) (S (S k))),
                 (Nat.leb_spec (S j + n_saved) (S (S (S k))));
          try reflexivity; unfold n_saved in *; lia.
Qed.

Lemma trainer_loop_checkpointed (epochs : list epoch_obs) :
  forall (done : list epoch_obs) (w : world),
    ready w ->
    checkpointed model_name done w ->
    exists (w' : world) (m : nat),
      trainer_loop model_name epochs w = Ok w' /\
      (m <= length epochs)%nat /\
      checkpointed model_name (done ++ take m epochs) w'.
Proof.
  induction epochs as [|o epochs IH]; intros done w Hready Hck; cbn [trainer_loop].
  - exists w, 0%nat. rewrite app_nil_r. auto.
  - destruct (should_terminate w).
    + exists w, 0%nat. cbn [take]. rewrite app_nil_r. split; [reflexivity |].
      split; [lia | exact Hck].
    + destruct (run_epoch_ok o w Hready) as (w1 & Hrun & Hep & _ & _ & Hkeep & _).
      rewrite Hrun. cbn [Py.bind].
      destruct (IH (done ++ [o]) w1) as (w' & m & Hloop & Hm & Hck').
      * eapply run_epoch_ready; eauto.
      * eapply checkpointed_step; eauto.
      * exists w', (S m). split; [exact Hloop |]. split; [cbn; lia |].
        cbn [take]. rewrite <- app_assoc in Hck'. exact Hck'.
Qed.

(** C3. The checkpoint handler is built on the directory [./saved_models],
    which it creates when absent. It runs on every completed epoch: after
    the training loop has completed [k] epochs the file of epoch [k] holds
    the model's state dict of that epoch, the handler keeps the files of
    the last two epochs and no more, the files of earlier epochs are gone,
    and every file is named [aircrafts_<model name>_<epoch>.pt], from the
    configured prefix and the name the model is registered under. *)
Theorem checkpoints_keep_two_recent
    (model0 : state_dict) (dir0 : option (gmap string state_dict))
    (epochs : list epoch_obs) :
  exists (w0 w : world) (files : gmap string state_dict),
    setup model0 dir0 = Ok w0 /\
    saved_models w0 = Some (default ∅ dir0) /\
    trainer_loop model_name epochs w0 = Ok w /\
    saved_models w = Some files /\
    saved w = recent_checkpoints model_name (trainer_epoch w) /\
    (length (saved w) <= 2)%nat /\
    (forall j : nat, (j < trainer_epoch w)%nat ->
        files !! ("aircrafts" +:+ "_" +:+ model_name +:+ "_" +:+ pretty (S j) +:+ ".pt") =
          if (S j + 2 <=? trainer_epoch w)%nat then None
          else obs_model <$> epochs !! j).
Proof.
  destruct (setup_ok model0 dir0)
    as (w0 & Hsetup & Hready & Hep & _ & Hsaved & Hdir & _).
  destruct (trainer_loop_checkpointed epochs [] w0 Hready)
    as (w & m & Hloop & Hm & Hepw & Hsv & files & Hfiles & Hkept).
  { split; [exact Hep |]. split; [exact Hsaved |].
    eexists. split; [exact Hdir |]. intros j Hj. cbn in Hj. lia. }
  cbn [app] in *.
  assert (Hlen : length (take m epochs) = m) by (rewrite length_take; lia).
  rewrite Hlen in *.
  exists w0, w, files. rewrite Hepw.
  split; [exact Hsetup |]. split; [exact Hdir |]. split; [exact Hloop |].
  split; [exact Hfiles |]. split; [exact Hsv |]. split.
  - rewrite Hsv. unfold recent_checkpoints, n_saved.
    rewrite length_fmap, length_seq. lia.
  - intros j Hj. specialize (Hkept j). rewrite Hlen in Hkept.
    rewrite lookup_take_lt in Hkept by lia. apply Hkept. exact Hj.
Qed.

Local Opaque n_saved.

End WithValues.

Lemma early_stopping_after_patience_witness :
  exists w',
    trainer_loop "model" (replicate 20 (Example.epoch 7)) Example.world1 = Ok w' /\
    should_terminate w' = true /\
    trainer_epoch w' = 11%nat.
Proof.
  assert (Hready : ready Example.world1) by (repeat split; vm_compute; eauto).
  assert (Hbest : best_score Example.world1 = Some (-5)) by (vm_compute; reflexivity).
  assert (Hstale : Forall (fun o => le (neg (nll (obs_val o))) (-5) = true)
                          (replicate 20 (Example.epoch 7))) by (repeat constructor).
  destruct (early_stopping_after_patience "model" Example.world1 (-5)
              (replicate 20 (Example.epoch 7)) Hready Hbest Hstale)
    as (_ & _ & (w' & Hloop & Hflag & Hcount) & _).
  exists w'. split; [exact Hloop |]. split.
  - rewrite Hflag. vm_compute. reflexivity.
  - rewrite Hcount; [vm_compute; reflexivity | vm_compute; reflexivity | vm_compute; lia].
Defined.

(** The claim of C10 read on the code fails between two handlers: in the
    first epoch, once [log_training_results] has returned and before
    [log_validation_results] runs, the training lists hold one entry and
    the validation lists none. *)
Lemma histories_unequal_between_handlers :
  ~ (forall w0 w : world Z unit,
        setup tt None = Ok w0 ->
        w ∈ trainer_trace "model" [Example.epoch 5] w0 ->
        exists n, history_lengths w = replicate 4 n).
Proof.
  intros Hall.
  assert (Hin : [1; 1; 0; 0]%nat ∈
                history_lengths <$> trainer_trace "model" [Example.epoch 5] Example.world0).
  { vm_compute. apply list_elem_of_lookup. exists 1%nat. reflexivity. }
  apply list_elem_of_fmap in Hin as (w & Hw & Hin).
  destruct (Hall Example.world0 w eq_refl Hin) as [n Hn].
  rewrite <- Hw in Hn. destruct n as [|[|n]]; discriminate.
Qed.

End EngineFacts.

(** ** The test partition *)

Module ScriptFacts.

Import Script.

Lemma mentions_false (x : string) (names : list string) :
  mentions x names = false -> x ∉ names.
Proof.
  unfold mentions. intros Hm Hin.
  apply not_true_iff_false in Hm. apply Hm.
  apply existsb_exists. exists x. split.
  - apply list_elem_of_In. exact Hin.
  - apply String.eqb_refl.
Qed.

Section Semantics.

Context {V : Type}.
Variable eff : nat -> list (option V) -> list V.

Lemma lookup_bind_all_notin (x : string) (names : list string) :
  forall (vals : list V) (env : gmap string V),
    x ∉ names -> bind_all names vals env !! x = env !! x.
Proof.
  unfold bind_all.
  induction names as [|n names IH]; intros [|v vals] env Hx; try reflexivity.
  cbn [zip zip_with foldr fst snd].
  apply not_elem_of_cons in Hx as [Hne Hx].
  rewrite lookup_insert_ne by congruence. apply IH. exact Hx.
Qed.

Lemma bind_all_agree (T names : list string) :
  forall (vals : list V) (env1 env2 : gmap string V),
    agree T env1 env2 -> agree T (bind_all names vals env1) (bind_all names vals env2).
Proof.
  unfold bind_all.
  induction names as [|n names IH]; intros [|v vals] env1 env2 Hag; try exact Hag.
  cbn [zip zip_with foldr fst snd]. intros y Hy.
  rewrite !lookup_insert. destruct (decide (n = y)); [reflexivity |].
  apply IH; assumption.
Qed.

Lemma exec_frame (x : string) (s : stmt) (env : gmap string V) :
  x ∉ defs s -> exec eff s env !! x = env !! x.
Proof. intros Hx. unfold exec. apply lookup_bind_all_notin. exact Hx. Qed.

Lemma exec_agree (T : list string) (s : stmt) (env1 env2 : gmap string V) :
  (forall x, x ∈ T -> x ∉ uses s) ->
  agree T env1 env2 -> agree T (exec eff s env1) (exec eff s env2).
Proof.
  intros Huses Hag. unfold exec.
  assert (Hin : (fun x => env1 !! x) <$> uses s = (fun x => env2 !! x) <$> uses s).
  { apply list_fmap_ext. intros i x Hx. apply Hag. intros HT.
    apply (Huses x HT). eapply list_elem_of_lookup_2, Hx. }
  rewrite Hin. apply bind_all_agree. exact Hag.
Qed.

Lemma exec_all_frame (x : string) (ss : list stmt) :
  forall env : gmap string V,
    Forall (fun s => x ∉ defs s) ss -> exec_all eff ss env !! x = env !! x.
Proof.
  unfold exec_all.
  induction ss as [|s ss IH]; intros env Hall; [reflexivity |].
  inversion Hall as [|? ? Hs Hss]; subst. cbn [foldl].
  rewrite IH by exact Hss. apply exec_frame. exact Hs.
Qed.

Lemma exec_all_agree (T : list string) (ss : list stmt) :
  forall env1 env2 : gmap string V,
    Forall (fun s => forall x, x ∈ T -> x ∉ uses s) ss ->
    agree T env1 env2 -> agree T (exec_all eff ss env1) (exec_all eff ss env2).
Proof.
  unfold exec_all.
  induction ss as [|s ss IH]; intros env1 env2 Hall Hag; [exact Hag |].
  inversion Hall as [|? ? Hs Hss]; subst. cbn [foldl].
  apply IH; [exact Hss |]. apply exec_agree; assumption.
Qed.

Lemma pipeline_clean :
  Forall (fun s => forall x, x ∈ test_partition -> (x ∉ defs s) /\ (x ∉ uses s)) pipeline.
Proof.
  assert (Hb : forallb (fun s =>
                 forallb (fun x => negb (mentions x (defs s)) && negb (mentions x (uses s)))
                         test_partition) pipeline = true) by (vm_compute; reflexivity).
  rewrite forallb_forall in Hb. apply Forall_forall. intros s Hs x Hx.
  apply list_elem_of_In in Hs. specialize (Hb s Hs).
  rewrite forallb_forall in Hb. apply list_elem_of_In in Hx. specialize (Hb x Hx).
  apply andb_true_iff in Hb as [Hd Hu].
  apply negb_true_iff in Hd, Hu.
  split; apply mentions_false; assumption.
Qed.

(** C5. Take a name [x] of the test partition ([test_images] or
    [test_labels]). No statement of dataset construction, of the
    training loop, of checkpointing or of early stopping binds, mutates
    or reads [x]; whatever these statements compute, the object bound to
    [x] is the same after them as before, and what they leave in every
    other name does not depend on the test partition. The evaluators read
    the loaders [train_loader] and [val_loader], and in the whole notebook
    the test partition is touched only by the download cell (lines 62 and
    63) and by the two exploration prints (lines 69 and 70). *)
Theorem test_partition_untouched (x : string) :
  x ∈ test_partition ->
  Forall (fun s => (x ∉ defs s) /\ (x ∉ uses s)) pipeline /\
  (forall env : gmap string V, exec_all eff pipeline env !! x = env !! x) /\
  (forall env1 env2 : gmap string V,
      agree test_partition env1 env2 ->
      agree test_partition (exec_all eff pipeline env1) (exec_all eff pipeline env2)) /\
  filter (fun y => mentions y data_names = true)
         (concat (uses <$> filter (fun s => runs_training s = true) notebook))
    = ["train_loader"; "val_loader"] /\
  line <$> filter (fun s => touches_test s = true) notebook = [62; 63; 69; 70]%nat.
Proof.
  intros Hx. pose proof pipeline_clean as Hclean.
  split; [|split; [|split; [|split]]].
  - eapply Forall_impl; [exact Hclean |]. intros s Hs. apply Hs, Hx.
  - intros env. apply exec_all_frame.
    eapply Forall_impl; [exact Hclean |]. intros s Hs. apply Hs, Hx.
  - intros env1 env2. apply exec_all_agree.
    eapply Forall_impl; [exact Hclean |]. intros s Hs y Hy. apply Hs, Hy.
  - vm_compute. reflexivity.
  - vm_compute. reflexivity.
Qed.

End Semantics.

Lemma test_partition_untouched_witness :
  exec_all (fun _ _ => [0%nat]) pipeline {[ "test_images" := 7%nat ]} !! "test_images"
    = Some 7%nat.
Proof.
  destruct (test_partition_untouched (fun _ _ => [0%nat]) "test_images")
    as (_ & Hframe & _).
  - apply list_elem_of_here.
  - rewrite Hframe. reflexivity.
Defined.

End ScriptFacts.

(** ** More on the label index sets *)

Module LabelsMore.

Import Labels LabelsFacts.

Lemma np_eq_cons (l v : Z) (labels : list Z) :
  np_eq (l :: labels) v = (l =? v) :: np_eq labels v.
Proof. reflexivity. Qed.

Lemma length_np_where_eq (labels : list Z) (v : Z) :
  forall k : nat,
    length (np_where_from k (np_eq labels v)) = length (filter (fun l => l = v) labels).
Proof.
  induction labels as [|l labels IH]; intros k; [reflexivity |].
  rewrite np_eq_cons. cbn [np_where_from].
  destruct (Z.eqb_spec l v) as [Heq | Hne].
  - rewrite filter_cons_True by exact Heq. cbn [length]. rewrite IH. reflexivity.
  - rewrite filter_cons_False by exact Hne. apply IH.
Qed.

Lemma length_three_way (labels : list Z) :
  (length (filter (fun l : Z => l = 0%Z) labels)
   + length (filter (fun l : Z => l = 1%Z) labels)
   + length (filter (fun l : Z => l <> 0%Z /\ l <> 1%Z) labels))%nat = length labels.
Proof.
  induction labels as [|l labels IH]; [reflexivity |].
  destruct (decide (l = 0)) as [-> | H0].
  - rewrite filter_cons_True by reflexivity.
    rewrite !filter_cons_False by lia. cbn [length]. lia.
  - destruct (decide (l = 1)) as [-> | H1].
    + rewrite (filter_cons_True (fun l => l = 1)) by reflexivity.
      rewrite !filter_cons_False by lia. cbn [length]. lia.
    + rewrite (filter_cons_True (fun l => l <> 0 /\ l <> 1)) by auto.
      rewrite !filter_cons_False by assumption. cbn [length]. lia.
Qed.

Lemma StronglySorted_np_where_from (cond : list bool) :
  forall k : nat, StronglySorted lt (np_where_from k cond).
Proof.
  induction cond as [|b cond IH]; intros k; cbn [np_where_from]; [constructor |].
  destruct b; [|apply IH].
  constructor; [apply IH |].
  apply Forall_forall. intros i Hi.
  apply np_where_from_lower in Hi. lia.
Qed.

(** X1. For every label array the background and the foreground index
    sets share no index; and they cover all the indices of the array
    exactly when every label is 0 or 1. *)
Theorem index_sets_disjoint_cover (trainval_labels : list Z) :
  (forall i : nat,
      ~ (i ∈ background_indexes trainval_labels /\ i ∈ foreground_indexes trainval_labels)) /\
  ((forall i : nat, (i < length trainval_labels)%nat ->
       (i ∈ background_indexes trainval_labels) \/ (i ∈ foreground_indexes trainval_labels))
   <-> (forall l, l ∈ trainval_labels -> l = 0 \/ l = 1)).
Proof.
  split; [|split].
  - intros i [Hb Hf].
    apply elem_of_background_indexes in Hb. apply elem_of_foreground_indexes in Hf.
    congruence.
  - intros Hcover l Hl.
    apply list_elem_of_lookup in Hl as [i Hi].
    destruct (Hcover i) as [Hb | Hf]; [eapply lookup_lt_Some, Hi | |].
    + apply elem_of_background_indexes in Hb. left. congruence.
    + apply elem_of_foreground_indexes in Hf. right. congruence.
  - intros Hbin i Hi.
    destruct (lookup_lt_is_Some_2 trainval_labels i Hi) as [l Hl].
    rewrite elem_of_background_indexes, elem_of_foreground_indexes, Hl.
    destruct (Hbin l) as [-> | ->]; [eapply list_elem_of_lookup_2, Hl | auto | auto].
Qed.

(** X2. The foreground index set has as many entries as there are labels
    equal to 1, the background index set as many as there are labels
    equal to 0, and together with the labels that are neither they add up
    to the length of the array. *)
Theorem index_sets_count (trainval_labels : list Z) :
  length (foreground_indexes trainval_labels) = Notebook.positives trainval_labels /\
  length (background_indexes trainval_labels)
    = length (filter (fun l => l = 0) trainval_labels) /\
  (length (background_indexes trainval_labels)
   + length (foreground_indexes trainval_labels)
   + length (filter (fun l : Z => l <> 0%Z /\ l <> 1%Z) trainval_labels))%nat
    = length trainval_labels.
Proof.
  unfold background_indexes, foreground_indexes, np_where, Notebook.positives.
  rewrite !length_np_where_eq.
  split; [reflexivity |]. split; [reflexivity |]. apply length_three_way.
Qed.

(** X3. Both index sets list their indices in strictly increasing order,
    as [np.where] does. *)
Theorem index_sets_increasing (trainval_labels : list Z) :
  StronglySorted lt (background_indexes trainval_labels) /\
  StronglySorted lt (foreground_indexes trainval_labels).
Proof. split; apply StronglySorted_np_where_from. Qed.

End LabelsMore.

(** ** More on the dataset wrapper *)

Module DatasetMore.

Import Dataset DatasetFacts.

Lemma np_getitem_negative {A} (l : list A) (k : Z) :
  1 <= k <= Z.of_nat (length l) ->
  np_getitem (PyArray l) (- k) = np_getitem (PyArray l) (Z.of_nat (length l) - k).
Proof.
  intros Hk. unfold np_getitem.
  destruct (Z.ltb_spec (- k) 0); [|lia].
  destruct (Z.ltb_spec (Z.of_nat (length l) - k) 0); [lia |].
  replace (- k + Z.of_nat (length l)) with (Z.of_nat (length l) - k) by lia.
  reflexivity.
Qed.

Lemma np_getitem_below_range {A} (l : list A) (i : Z) :
  i < - Z.of_nat (length l) ->
  np_getitem (PyArray l) i = Raise IndexError.
Proof.
  intros Hi. unfold np_getitem.
  destruct (Z.ltb_spec i 0); [|lia].
  replace (0 <=? i + Z.of_nat (length l)) with false by (symmetry; apply Z.leb_gt; lia).
  reflexivity.
Qed.

Section WithCallables.

Context {npval obj callable : Type}.
Variable call :
  callable -> npval -> NpArrayDataset npval callable ->
  obj * NpArrayDataset npval callable.
Variable torch_tensor : npval -> obj.

(** X4. On a dataset whose two arrays have the same length [n], a
    negative index [-k] with [1 <= k <= n] counts from the end: the call
    behaves exactly as the call at index [n - k]. *)
Theorem getitem_negative_index
    (self : NpArrayDataset npval callable) (imgs lbls : list npval) (k : Z) :
  images self = PyArray imgs ->
  labels self = PyArray lbls ->
  length imgs = length lbls ->
  1 <= k <= Z.of_nat (length imgs) ->
  __getitem__ call torch_tensor (- k) self
    = __getitem__ call torch_tensor (Z.of_nat (length imgs) - k) self.
Proof.
  intros Himgs Hlbls Hlen Hk.
  unfold __getitem__, and_then, attr, lift.
  rewrite Himgs, Hlbls.
  rewrite (np_getitem_negative imgs k) by exact Hk.
  rewrite (np_getitem_negative lbls k) by lia.
  rewrite Hlen. reflexivity.
Qed.

(** X5. An index outside the images array, at or above its length or
    below minus its length, makes [__getitem__] raise [IndexError]: the
    labels are not read, no transform is called, and the dataset is left
    as it was, whatever the labels and the transforms are. *)
Theorem getitem_out_of_range
    (self : NpArrayDataset npval callable) (imgs : list npval) (index : Z) :
  images self = PyArray imgs ->
  index < - Z.of_nat (length imgs) \/ Z.of_nat (length imgs) <= index ->
  __getitem__ call torch_tensor index self = (Raise IndexError, self).
Proof.
  intros Himgs Hout.
  unfold __getitem__, and_then, attr, lift. rewrite Himgs.
  destruct Hout as [Hlow | Hhigh].
  - rewrite np_getitem_below_range by exact Hlow. reflexivity.
  - rewrite np_getitem_out_of_range by exact Hhigh. reflexivity.
Qed.

(** X6. On a dataset holding two arrays, every index from 0 up to
    [__len__] makes [__getitem__] return a pair exactly when the labels
    array is at least as long as the images array. *)
Theorem every_index_returns_iff
    (self : NpArrayDataset npval callable) (imgs lbls : list npval) :
  images self = PyArray imgs ->
  labels self = PyArray lbls ->
  (forall index : Z,
      0 <= index < Z.of_nat (length imgs) ->
      exists p, (__getitem__ call torch_tensor index self).1 = Ok p)
  <-> (length imgs <= length lbls)%nat.
Proof.
  intros Himgs Hlbls. split.
  - intros Hall.
    destruct (Nat.le_gt_cases (length imgs) (length lbls)) as [Hle | Hgt]; [exact Hle |].
    destruct (Hall (Z.of_nat (length lbls))) as [p Hp]; [lia |].
    rewrite (getitem_short_labels call torch_tensor self imgs lbls) in Hp
      by (assumption || lia).
    discriminate.
  - intros Hle index Hi.
    destruct (np_getitem_in_range imgs index) as [x Hx]; [lia |].
    destruct (np_getitem_in_range lbls index) as [y Hy]; [lia |].
    rewrite (getitem_unfold call torch_tensor self index x y) by congruence.
    cbv zeta. eexists. reflexivity.
Qed.

End WithCallables.

Lemma getitem_negative_index_witness :
  Dataset.__getitem__ Example.call Example.torch_tensor (- 1) Example.dataset
    = Dataset.__getitem__ Example.call Example.torch_tensor 2 Example.dataset.
Proof.
  apply (getitem_negative_index Example.call Example.torch_tensor
           Example.dataset [10; 20; 30] [0; 1; 0] 1);
    [reflexivity | reflexivity | reflexivity | simpl; lia].
Defined.

Lemma getitem_out_of_range_witness :
  Dataset.__getitem__ Example.call Example.torch_tensor 3 Example.dataset
    = (Raise IndexError, Example.dataset).
Proof.
  apply (getitem_out_of_range Example.call Example.torch_tensor
           Example.dataset [10; 20; 30] 3);
    [reflexivity | right; simpl; lia].
Defined.

Lemma every_index_returns_iff_witness :
  ~ (forall index : Z,
        0 <= index < 3 ->
        exists p,
          (Dataset.__getitem__ Example.call Example.torch_tensor index Example.ragged).1
            = Ok p).
Proof.
  intros Hall.
  apply (every_index_returns_iff Example.call Example.torch_tensor
           Example.ragged [10; 20; 30] [0]) in Hall;
    [simpl in Hall; lia | reflexivity | reflexivity].
Defined.

End DatasetMore.

(** ** More on the network template *)

Module ModelMore.

Import Model.

(** X7. With a library that raises on the first blank [in_channels],
    [model_fn] never returns a model, whatever the other constructors do
    and whatever [num_classes] is: it raises the library's exception for
    the blank, or the exception of one of the three constructors that run
    before it, and the cell that builds the model raises the same. *)
Theorem model_fn_fails_on_blank {module : Type} `{nn module}
    (e : exn) (num_classes : Z) :
  Conv2d HEllipsis (HInt 32) (HInt 3) (HInt 1) = Raise e ->
  exists e',
    model_fn num_classes = Raise e' /\
    model_cell = Raise e' /\
    (e' = e \/
     Conv2d (HInt 3) (HInt 32) (HInt 3) (HInt 1) = Raise e' \/
     BatchNorm2d (HInt 32) = Raise e' \/
     ReLU = Raise e').
Proof.
  intros Hblank.
  assert (Hfn : exists e',
             (forall n, model_fn n = Raise e') /\
             (e' = e \/
              Conv2d (HInt 3) (HInt 32) (HInt 3) (HInt 1) = Raise e' \/
              BatchNorm2d (HInt 32) = Raise e' \/
              ReLU = Raise e')).
  { unfold model_fn.
    destruct (Conv2d (HInt 3) (HInt 32) (HInt 3) (HInt 1)) as [m1|e1] eqn:H1;
      [|exists e1; split; [reflexivity | auto]].
    destruct (BatchNorm2d (HInt 32)) as [m2|e2] eqn:H2;
      [|exists e2; split; [reflexivity | auto]].
    destruct ReLU as [m3|e3] eqn:H3;
      [|exists e3; split; [reflexivity | auto]].
    exists e. split; [|auto]. intros n. cbn [Py.bind]. rewrite Hblank. reflexivity. }
  destruct Hfn as (e' & Hfn & Hwhich).
  exists e'. split; [apply Hfn |]. split; [|exact Hwhich].
  apply ModelFacts.model_cell_propagates, Hfn.
Qed.

Lemma model_fn_fails_on_blank_witness :
  exists e', model_fn (module := string) 5 = Raise e'.
Proof.
  destruct (model_fn_fails_on_blank (module := string) (H := torch_nn) TypeError 5)
    as (e' & Hfn & _); [reflexivity |].
  exists e'. exact Hfn.
Defined.

End ModelMore.

(** ** More on the handlers *)

Module EngineMore.

Import Engine Views EngineFacts.

Local Opaque patience n_saved.

Section WithValues.

Context {value : Type} `{Metric value} {state_dict : Type}.
Variable model_name : string.

Implicit Types (w : world value state_dict) (o : epoch_obs value state_dict).
Implicit Types (epochs done : list (epoch_obs value state_dict)).

(** X8. [score_function] raises [KeyError] exactly when the engine's
    metrics hold no ["nll"], as on an evaluator that has not run yet, and
    returns the negated loss otherwise; after a run of an evaluator built
    with the notebook's [metrics] it always returns. *)
Theorem score_function_key (e : engine value) :
  (metrics e !! "nll" = None <-> score_function e = Raise KeyError) /\
  (forall v, score_function e = Ok v <->
             exists loss, metrics e !! "nll" = Some loss /\ v = neg loss) /\
  (forall ev : evaluation value,
      score_function {| metrics := computed_metrics ev |} = Ok (neg (nll ev))) /\
  score_function (value := value) {| metrics := ∅ |} = Raise KeyError.
Proof.
  unfold score_function, dict_get. split; [|split; [|split]].
  - destruct (metrics e !! "nll"); split; intros Hx; try reflexivity; discriminate.
  - intros v. destruct (metrics e !! "nll") as [loss|]; cbn [Py.bind]; split.
    + intros [= <-]. eauto.
    + intros (loss' & [= <-] & ->). reflexivity.
    + discriminate.
    + intros (loss' & Hnone & _). discriminate.
  - intros ev. cbn [metrics].
    rewrite (proj2 (lookup_computed_metrics ev)). reflexivity.
  - reflexivity.
Qed.

(** *** What the history lists hold *)

Lemma lookup_appended (h : gmap string (list value)) (ev : evaluation value) :
  appended h ev !! "accuracy"
    = Some (default [] (h !! "accuracy") ++ [times100 (accuracy ev)]) /\
  appended h ev !! "loss" = Some (default [] (h !! "loss") ++ [nll ev]).
Proof.
  unfold appended. cbv zeta. split.
  - rewrite lookup_insert_ne by discriminate. apply lookup_insert_eq.
  - apply lookup_insert_eq.
Qed.

Lemma logged_step done o w w' :
  ready w -> logged done w -> run_epoch model_name o w = Ok w' ->
  logged (done ++ [o]) w'.
Proof.
  intros Hready (Hep & Hta & Htl & Hva & Hvl & Hle) Hrun.
  destruct (run_epoch_ok model_name o w Hready)
    as (w1 & Hrun1 & Hep1 & _ & _ & _ & Hth & Hvh & Hle1).
  assert (w1 = w') as -> by congruence.
  unfold logged. rewrite Hth, Hvh, Hle1, Hep1, Hep, Hle.
  destruct (lookup_appended (training_history w) (obs_train o)) as [-> ->].
  destruct (lookup_appended (validation_history w) (obs_val o)) as [-> ->].
  rewrite Hta, Htl, Hva, Hvl. cbn [default].
  rewrite !fmap_app, length_app. cbn [fmap list_fmap length].
  replace (length done + 1)%nat with (S (length done)) by lia.
  repeat split; try reflexivity.
  rewrite replicate_S_end. reflexivity.
Qed.

Lemma trainer_loop_logged epochs :
  forall done w,
    ready w -> logged done w ->
    exists w' (m : nat),
      trainer_loop model_name epochs w = Ok w' /\
      (m <= length epochs)%nat /\
      logged (done ++ take m epochs) w'.
Proof.
  induction epochs as [|o epochs IH]; intros done w Hready Hlog; cbn [trainer_loop].
  - exists w, 0%nat. rewrite app_nil_r. auto.
  - destruct (should_terminate w).
    + exists w, 0%nat. cbn [take]. rewrite app_nil_r.
      split; [reflexivity |]. split; [lia | exact Hlog].
    + destruct (run_epoch_ok model_name o w Hready) as (w1 & Hrun & _).
      rewrite Hrun. cbn [Py.bind].
      destruct (IH (done ++ [o]) w1) as (w' & m & Hloop & Hm & Hlog').
      * eapply run_epoch_ready; eauto.
      * eapply logged_step; eauto.
      * exists w', (S m). split; [exact Hloop |]. split; [cbn; lia |].
        cbn [take]. rewrite <- app_assoc in Hlog'. exact Hlog'.
Qed.

(** X9. From the notebook's initial state, after the training loop the
    history lists hold, in epoch order and one entry per completed epoch:
    the training accuracy times 100, the training loss, the validation
    accuracy times 100 and the validation loss; and [last_epoch] holds
    one [0] per completed epoch. *)
Theorem histories_hold_metrics
    (model0 : state_dict) (dir0 : option (gmap string state_dict)) epochs :
  exists w0 w,
    setup model0 dir0 = Ok w0 /\
    trainer_loop model_name epochs w0 = Ok w /\
    let ran := take (trainer_epoch w) epochs in
    length ran = trainer_epoch w /\
    training_history w !! "accuracy"
      = Some ((fun o => times100 (accuracy (obs_train o))) <$> ran) /\
    training_history w !! "loss" = Some ((fun o => nll (obs_train o)) <$> ran) /\
    validation_history w !! "accuracy"
      = Some ((fun o => times100 (accuracy (obs_val o))) <$> ran) /\
    validation_history w !! "loss" = Some ((fun o => nll (obs_val o)) <$> ran) /\
    last_epoch w = replicate (trainer_epoch w) 0.
Proof.
  destruct (setup_ok (value := value) model0 dir0)
    as (w0 & Hsetup & Hready & Hep & _ & _ & _ & _ & Hlast).
  destruct (trainer_loop_logged epochs [] w0 Hready)
    as (w & m & Hloop & Hm & Hepw & Hta & Htl & Hva & Hvl & Hle).
  { unfold logged. rewrite Hep, Hlast. cbn [length fmap list_fmap replicate].
    unfold setup, ModelCheckpoint in Hsetup.
    destruct dir0; cbn [andb Py.bind] in Hsetup; injection Hsetup as <-;
      cbn [training_history validation_history];
      repeat split; try reflexivity;
      (apply lookup_insert_eq ||
       (rewrite lookup_insert_ne by discriminate; apply lookup_insert_eq)). }
  cbn [app] in *.
  assert (Hlen : length (take m epochs) = m) by (rewrite length_take; lia).
  rewrite Hlen in Hepw, Hle.
  exists w0, w. split; [exact Hsetup |]. split; [exact Hloop |].
  cbv zeta. rewrite Hepw.
  split; [exact Hlen |]. split; [exact Hta |]. split; [exact Htl |].
  split; [exact Hva |]. split; [exact Hvl | exact Hle].
Qed.

(** *** What early stopping depends on *)

(** X10. Early stopping looks at the validation loss only: two training
    runs that start with the same early-stopping state and meet the same
    validation losses, epoch by epoch, complete the same number of epochs
    and end in the same early-stopping state, whatever their training
    metrics, validation accuracies and model parameters are. *)
Theorem early_stopping_reads_validation_loss epochs1 epochs2 w1 w2 :
  ready w1 -> ready w2 ->
  stopper w1 = stopper w2 ->
  (fun o => nll (obs_val o)) <$> epochs1 = (fun o => nll (obs_val o)) <$> epochs2 ->
  exists w1' w2' (n : nat),
    trainer_loop model_name epochs1 w1 = Ok w1' /\
    trainer_loop model_name epochs2 w2 = Ok w2' /\
    stopper w1' = stopper w2' /\
    trainer_epoch w1' = (trainer_epoch w1 + n)%nat /\
    trainer_epoch w2' = (trainer_epoch w2 + n)%nat.
Proof.
  revert epochs2 w1 w2.
  induction epochs1 as [|o1 epochs1 IH]; intros [|o2 epochs2] w1 w2 Hr1 Hr2 Hst Hnll;
    try discriminate; cbn [trainer_loop].
  - exists w1, w2, 0%nat. repeat split; auto.
  - cbn [fmap list_fmap] in Hnll. injection Hnll as Ho Hnll.
    assert (Hstop : should_terminate w1 = should_terminate w2).
    { unfold stopper in Hst. congruence. }
    rewrite <- Hstop. destruct (should_terminate w1).
    + exists w1, w2, 0%nat. repeat split; auto.
    + destruct (run_epoch_ok model_name o1 w1 Hr1) as (v1 & Hrun1 & Hep1 & _ & Hst1 & _).
      destruct (run_epoch_ok model_name o2 w2 Hr2) as (v2 & Hrun2 & Hep2 & _ & Hst2 & _).
      rewrite Hrun1, Hrun2. cbn [Py.bind].
      destruct (IH epochs2 v1 v2) as (w1' & w2' & n & Hl1 & Hl2 & Hst' & He1 & He2).
      * exact (run_epoch_ready model_name o1 w1 v1 Hr1 Hrun1).
      * exact (run_epoch_ready model_name o2 w2 v2 Hr2 Hrun2).
      * rewrite Hst1, Hst2, Hst, Ho. reflexivity.
      * exact Hnll.
      * exists w1', w2', (S n). split; [exact Hl1 |]. split; [exact Hl2 |].
        split; [exact Hst' |]. split; lia.
Qed.

Lemma stopper_bounded_step o w w' :
  ready w -> should_terminate w = false -> stopper_bounded w ->
  run_epoch model_name o w = Ok w' ->
  stopper_bounded w'.
Proof.
  intros Hready Hstop [Hterm Hcount] Hrun.
  destruct (run_epoch_ok model_name o w Hready) as (w1 & Hrun1 & Hep & _ & Hst & _).
  assert (w1 = w') as -> by congruence.
  unfold stopper in Hst. rewrite Hstop in Hst. unfold stopper_step in Hst.
  unfold stopper_bounded. rewrite Hep.
  destruct (best_score w) as [best|].
  - destruct (le (neg (nll (obs_val o))) best); injection Hst as -> -> ->.
    + split; [|lia]. cbn [orb]. intros Hle. apply Nat.leb_le in Hle. exact Hle.
    + split; [discriminate | lia].
  - injection Hst as -> -> ->. split; [discriminate | lia].
Qed.

Lemma trainer_loop_bounded epochs :
  forall w,
    ready w -> stopper_bounded w ->
    exists w',
      trainer_loop model_name epochs w = Ok w' /\
      stopper_bounded w' /\
      (should_terminate w' = false ->
       trainer_epoch w' = (trainer_epoch w + length epochs)%nat).
Proof.
  induction epochs as [|o epochs IH]; intros w Hready Hb; cbn [trainer_loop length].
  - exists w. split; [reflexivity |]. split; [exact Hb | intros _; lia].
  - destruct (should_terminate w) eqn:Hstop.
    + exists w. split; [reflexivity |]. split; [exact Hb | congruence].
    + destruct (run_epoch_ok model_name o w Hready) as (w1 & Hrun & Hep & _).
      rewrite Hrun. cbn [Py.bind].
      destruct (IH w1) as (w' & Hloop & Hb' & Hall).
      * eapply run_epoch_ready; eauto.
      * eapply stopper_bounded_step; eauto.
      * exists w'. split; [exact Hloop |]. split; [exact Hb' |].
        intros Hns. rewrite (Hall Hns). lia.
Qed.

Local Transparent patience.

(** X11. With [patience=10], early stopping cannot end a training run
    that starts from the notebook's initial state before 11 epochs are
    completed: the first epoch only puts a score on record, and ten
    further epochs are needed to count to the patience. *)
Theorem at_least_eleven_epochs
    (model0 : state_dict) (dir0 : option (gmap string state_dict)) epochs :
  exists w0 w,
    setup model0 dir0 = Ok w0 /\
    trainer_loop model_name epochs w0 = Ok w /\
    (Nat.min (length epochs) 11 <= trainer_epoch w)%nat.
Proof.
  destruct (setup_ok (value := value) model0 dir0)
    as (w0 & Hsetup & Hready & Hep & Hstop & _).
  assert (Hb0 : stopper_bounded w0).
  { unfold setup, ModelCheckpoint in Hsetup.
    destruct dir0; cbn [andb Py.bind] in Hsetup; injection Hsetup as <-;
      (split; [discriminate | split; reflexivity]). }
  destruct (trainer_loop_bounded epochs w0 Hready Hb0) as (w & Hloop & [Hterm Hcount] & Hall).
  exists w0, w. split; [exact Hsetup |]. split; [exact Hloop |].
  destruct (should_terminate w) eqn:Hst.
  - specialize (Hterm eq_refl). unfold patience in Hterm.
    destruct (best_score w); [lia |]. destruct Hcount as [Hc _]. lia.
  - rewrite (Hall eq_refl), Hep. lia.
Qed.

Local Opaque patience.

End WithValues.

Lemma early_stopping_reads_validation_loss_witness :
  exists w1' w2' : world Z unit,
    trainer_loop "model" [Example.epoch 5] Example.world0 = Ok w1' /\
    trainer_loop "model"
      [{| obs_model := tt;
          obs_train := Example.evaluation 99 42;
          obs_val := Example.evaluation 3 5 |}] Example.world0 = Ok w2' /\
    stopper w1' = stopper w2'.
Proof.
  assert (Hready : ready Example.world0) by (repeat split; vm_compute; eauto).
  destruct (early_stopping_reads_validation_loss "model"
              [Example.epoch 5]
              [{| obs_model := tt;
                  obs_train := Example.evaluation 99 42;
                  obs_val := Example.evaluation 3 5 |}]
              Example.world0 Example.world0 Hready Hready eq_refl eq_refl)
    as (w1' & w2' & n & H1 & H2 & Hst & _).
  exists w1', w2'. auto.
Defined.

(** Eleven epochs are enough: with a validation loss that never moves,
    the run stops right after the eleventh of twenty epochs. *)
Example stops_after_eleven :
  trainer_epoch
    (Example.from_ok Example.world0
       (trainer_loop "model" (replicate 20 (Example.epoch 5)) Example.world0))
    = 11%nat.
Proof. vm_compute. reflexivity. Qed.

End EngineMore.

(** ** More on the notebook cells *)

Module ScriptMore.

Import Script Views ScriptFacts.

Lemma mentions_true (x : string) (names : list string) :
  mentions x names = true <-> x ∈ names.
Proof.
  unfold mentions. rewrite existsb_exists. split.
  - intros (y & Hin & Heq). apply String.eqb_eq in Heq as ->.
    apply list_elem_of_In. exact Hin.
  - intros Hin. exists x. split; [apply list_elem_of_In; exact Hin | apply String.eqb_refl].
Qed.

Section Frames.

Context {V : Type}.
Variable eff : nat -> list (option V) -> list V.

Lemma after_hint_clean :
  Forall (fun s => forall x, x ∈ archive_names -> (x ∉ defs s) /\ (x ∉ uses s)) after_hint.
Proof.
  assert (Hb : forallb (fun s =>
                 forallb (fun x => negb (mentions x (defs s)) && negb (mentions x (uses s)))
                         archive_names) after_hint = true) by (vm_compute; reflexivity).
  rewrite forallb_forall in Hb. apply Forall_forall. intros s Hs x Hx.
  apply list_elem_of_In in Hs. specialize (Hb s Hs).
  rewrite forallb_forall in Hb. apply list_elem_of_In in Hx. specialize (Hb x Hx).
  apply andb_true_iff in Hb as [Hd Hu].
  apply negb_true_iff in Hd, Hu.
  split; apply mentions_false; assumption.
Qed.

(** X13. No cell below the splitting hint binds, mutates or reads one of
    the arrays of the archive or one of the two index sets computed from
    the labels: whatever these cells compute, they leave the object bound
    to such a name [x] untouched, and what they bind (the datasets, the
    loaders, the model, the trainer and its handlers) does not depend on
    the arrays or on the index sets. *)
Theorem cells_after_hint_ignore_arrays (x : string) :
  x ∈ archive_names ->
  Forall (fun s => (x ∉ defs s) /\ (x ∉ uses s)) after_hint /\
  (forall env : gmap string V, exec_all eff after_hint env !! x = env !! x) /\
  (forall env1 env2 : gmap string V,
      agree archive_names env1 env2 ->
      agree archive_names (exec_all eff after_hint env1) (exec_all eff after_hint env2)).
Proof.
  intros Hx. pose proof after_hint_clean as Hclean.
  split; [|split].
  - eapply Forall_impl; [exact Hclean |]. intros s Hs. apply Hs, Hx.
  - intros env. apply exec_all_frame.
    eapply Forall_impl; [exact Hclean |]. intros s Hs. apply Hs, Hx.
  - intros env1 env2. apply exec_all_agree.
    eapply Forall_impl; [exact Hclean |]. intros s Hs y Hy. apply Hs, Hy.
Qed.

End Frames.

Lemma cells_after_hint_ignore_arrays_witness :
  exec_all (fun _ _ => [0%nat]) after_hint {[ "trainval_labels" := 7%nat ]}
    !! "trainval_labels" = Some 7%nat.
Proof.
  destruct (cells_after_hint_ignore_arrays (fun _ _ => [0%nat]) "trainval_labels")
    as (_ & Hframe & _).
  - apply list_elem_of_In. vm_compute. auto.
  - rewrite Hframe. reflexivity.
Defined.


Section Checked.

Context {V : Type}.
Variable step : nat -> list (option V) -> option (list V).

Lemma is_Some_bind_all (x : string) (names : list string) :
  forall (vals : list V) (env : gmap string V),
    (length names <= length vals)%nat ->
    x ∈ names \/ is_Some (env !! x) ->
    is_Some (bind_all names vals env !! x).
Proof.
  unfold bind_all.
  induction names as [|n names IH]; intros vals env Hlen Hx.
  - destruct Hx as [Hx | Hx]; [inversion Hx |]. destruct vals; exact Hx.
  - destruct vals as [|v vals]; cbn [length] in Hlen; [lia |].
    cbn [zip zip_with foldr fst snd]. rewrite lookup_insert.
    destruct (decide (n = x)) as [-> | Hne]; [eauto |].
    apply IH; [lia |]. destruct Hx as [Hx | Hx]; [|right; exact Hx].
    apply elem_of_cons in Hx as [-> | Hx]; [congruence | left; exact Hx].
Qed.

Lemma find_unbound_none (env : gmap string V) (names : list string) :
  (forall x, x ∈ names -> is_Some (env !! x)) ->
  List.find (fun x => negb (bool_decide (is_Some (env !! x)))) names = None.
Proof.
  intros Hall. induction names as [|n names IH]; [reflexivity |].
  cbn [List.find].
  rewrite (bool_decide_eq_true_2 _ (Hall n (list_elem_of_here _ _))). cbn [negb].
  apply IH. intros x Hx. apply Hall. apply list_elem_of_further, Hx.
Qed.

Lemma run_script_scoped (ss : list stmt) :
  forall (bound : list string) (env : gmap string V),
    well_scoped bound ss = true ->
    (forall x, x ∈ bound -> is_Some (env !! x)) ->
    binds_when_completes step ss ->
    match run_script step ss env with
    | Completed env' =>
        (forall x, is_Some (env !! x) -> is_Some (env' !! x)) /\
        (forall s x, s ∈ ss -> x ∈ defs s \/ x ∈ uses s -> is_Some (env' !! x))
    | Raised l => exists s inputs, s ∈ ss /\ line s = l /\ step l inputs = None
    | Unbound _ _ => False
    end.
Proof.
  induction ss as [|s ss IH]; intros bound env Hscoped Hbound Hstep.
  - cbn [run_script]. split; [auto |]. intros s x Hs. inversion Hs.
  - cbn [well_scoped] in Hscoped. apply andb_true_iff in Hscoped as [Huses Hrest].
    rewrite forallb_forall in Huses.
    assert (Hread : forall x, x ∈ uses s -> is_Some (env !! x)).
    { intros x Hx. apply Hbound, mentions_true, Huses, list_elem_of_In, Hx. }
    cbn [run_script]. unfold exec_stmt.
    rewrite (find_unbound_none env (uses s) Hread).
    destruct (step (line s) ((fun x => env !! x) <$> uses s)) as [vals|] eqn:Hvals.
    + assert (Hnew : forall x, x ∈ defs s \/ is_Some (env !! x) ->
                               is_Some (bind_all (defs s) vals env !! x)).
      { intros x Hx. apply is_Some_bind_all; [|exact Hx].
        eapply Hstep; [apply list_elem_of_here | exact Hvals]. }
      specialize (IH (defs s ++ bound) (bind_all (defs s) vals env) Hrest).
      destruct (run_script step ss (bind_all (defs s) vals env)) as [env'|l|l x].
      * destruct IH as [Hmono Hall].
        -- intros x Hx. apply Hnew. apply elem_of_app in Hx as [Hx | Hx]; auto.
        -- intros s' inputs vals' Hs'. apply Hstep. apply list_elem_of_further, Hs'.
        -- split.
           ++ intros x Hx. apply Hmono, Hnew. right. exact Hx.
           ++ intros s' x Hs' Hx. apply elem_of_cons in Hs' as [-> | Hs'].
              ** apply Hmono, Hnew. destruct Hx as [Hx | Hx]; [left; exact Hx |].
                 right. apply Hread, Hx.
              ** eapply Hall; eauto.
      * destruct IH as (s' & inputs & Hs' & Hl & Hnone).
        -- intros x Hx. apply Hnew. apply elem_of_app in Hx as [Hx | Hx]; auto.
        -- intros s' inputs vals' Hs'. apply Hstep. apply list_elem_of_further, Hs'.
        -- exists s', inputs. split; [apply list_elem_of_further, Hs' | auto].
      * apply IH.
        -- intros y Hy. apply Hnew. apply elem_of_app in Hy as [Hy | Hy]; auto.
        -- intros s' inputs vals' Hs'. apply Hstep. apply list_elem_of_further, Hs'.
    + exists s, ((fun x => env !! x) <$> uses s).
      split; [apply list_elem_of_here |]. split; [reflexivity | exact Hvals].
Qed.

(** X12. Run as a script from top to bottom in a fresh session, where a
    statement either raises, which ends the run, or completes and binds
    the names it assigns, the notebook never stops on a global name that
    is not bound: whatever its statements do, the run ends at a statement
    that raised by itself, or it completes with every name that a
    statement binds or reads bound. *)
Theorem notebook_never_reads_unbound :
  binds_when_completes step notebook ->
  scoped_outcome step notebook (run_script step notebook ∅) /\
  (forall l x, run_script step notebook ∅ <> Unbound l x).
Proof.
  intros Hstep.
  pose proof (run_script_scoped notebook [] ∅) as Hrun.
  assert (Hscoped : well_scoped [] notebook = true) by (vm_compute; reflexivity).
  specialize (Hrun Hscoped).
  assert (Hout : scoped_outcome step notebook (run_script step notebook ∅)).
  { unfold scoped_outcome.
    destruct (run_script step notebook ∅) as [env|l|l x].
    - apply Hrun; [intros x Hx; inversion Hx | exact Hstep].
    - apply Hrun; [intros x Hx; inversion Hx | exact Hstep].
    - apply Hrun; [intros y Hy; inversion Hy | exact Hstep]. }
  split; [exact Hout |].
  intros l x Heq. rewrite Heq in Hout. exact Hout.
Qed.

End Checked.

(** A run in which the first data loader cannot be built (line 179, on a
    dataset of blanks) and every other statement completes. *)
Lemma notebook_never_reads_unbound_witness :
  run_script (fun l _ => if (l =? 179)%nat then None else Some (replicate 5 0%nat))
             notebook ∅ = Raised 179 /\
  (forall l x,
      run_script (fun l _ => if (l =? 179)%nat then None else Some (replicate 5 0%nat))
                 notebook ∅ <> Unbound l x).
Proof.
  split; [vm_compute; reflexivity |].
  apply (notebook_never_reads_unbound
           (fun l _ => if (l =? 179)%nat then None else Some (replicate 5 0%nat))).
  intros s inputs vals Hs Hvals.
  assert (Hb : forallb (fun s => (length (defs s) <=? 5)%nat) notebook = true)
    by (vm_compute; reflexivity).
  rewrite forallb_forall in Hb. apply list_elem_of_In in Hs.
  specialize (Hb s Hs). apply Nat.leb_le in Hb.
  destruct (line s =? 179)%nat; [discriminate |].
  injection Hvals as Hv. subst vals. simpl. exact Hb.
Defined.

End ScriptMore.
